(** * POC-semana10: the Pokemon API service and its monitoring bot

    A shallow embedding of the parts of the repository that the specification
    describes:

    - [src/monitoringbot.py]: [APIMonitor.test_endpoint], [check_latency],
      [check_availability] and [_draw_ascii_graph];
    - [src/POC-sem5/app/features/search/repositories.py]: [get_stats_from_db]
      and [get_image_url];
    - [src/POC-sem5/app/main.py]: [health_check];
    - [src/POC-sem5/app/features/poke_img/routes.py]: [get_image_fallback].

    Conventions.  Python [float] arithmetic is idealised as exact rational
    arithmetic over [Q]; Python [int] is [Z].  Exceptions are explicit: a
    function that can raise returns a [result].  The outside world (the HTTP
    transport, the clock, the store, the file system) is passed in as an
    argument.  Console output is not modelled, except for the character grid
    that [_draw_ascii_graph] prints. *)

From Stdlib Require Import ZArith QArith Qround Qminmax List String Ascii Lia
  Lqa Bool Permutation Sorted.
From stdpp Require Import gmap strings.

Import ListNotations.
Local Open Scope Z_scope.

(** ** Exceptions and results *)

Inductive exn : Type :=
| RequestException            (* requests.RequestException and its subclasses *)
| KeyboardInterrupt
| HTTPException (status_code : Z) (detail : string)
| OtherError (msg : string).

Inductive result (A : Type) : Type :=
| Ok (a : A)
| Raise (e : exn).

Arguments Ok {A} a.
Arguments Raise {A} e.

Definition bind {A B : Type} (m : result A) (k : A -> result B) : result B :=
  match m with
  | Ok a => k a
  | Raise e => Raise e
  end.

Notation "'do' x <- m ; k" := (bind m (fun x => k))
  (at level 10, x name, m at level 100, k at level 200).

(** [except Exception]: every exception of the model except
    [KeyboardInterrupt], which derives from [BaseException]. *)
Definition is_Exception (e : exn) : bool :=
  match e with
  | KeyboardInterrupt => false
  | _ => true
  end.

(** ** Python primitives used by the sources *)

Module Py.

(** [str.lower] on ASCII text. *)
Definition lower_ascii (c : ascii) : ascii :=
  let n := nat_of_ascii c in
  if ((65 <=? n)%nat && (n <=? 90)%nat)%bool then ascii_of_nat (n + 32) else c.

Fixpoint lower (s : string) : string :=
  match s with
  | EmptyString => EmptyString
  | String c s' => String (lower_ascii c) (lower s')
  end.

(** [int(x)] on a float: truncation toward zero. *)
Definition int (q : Q) : Z :=
  if Qle_bool 0 q then Qfloor q else Qceiling q.

(** [round(x)]: to the nearest integer, ties to the even one. *)
Definition round (q : Q) : Z :=
  let f := Qfloor q in
  let d := (q - inject_Z f)%Q in
  match (d ?= 1 # 2)%Q with
  | Lt => f
  | Gt => f + 1
  | Eq => if Z.even f then f else f + 1
  end.

(** [a > b] on numbers. *)
Definition gt (a b : Q) : bool := negb (Qle_bool a b).

(** [max(data)] and [min(data)]: the first largest (smallest) element;
    [None] stands for the [ValueError] on an empty sequence. *)
Fixpoint max_from (best : Q) (l : list Q) : Q :=
  match l with
  | [] => best
  | x :: l' => max_from (if gt x best then x else best) l'
  end.

Fixpoint min_from (best : Q) (l : list Q) : Q :=
  match l with
  | [] => best
  | x :: l' => min_from (if gt best x then x else best) l'
  end.

Definition max (l : list Q) : option Q :=
  match l with
  | [] => None
  | x :: l' => Some (max_from x l')
  end.

Definition min (l : list Q) : option Q :=
  match l with
  | [] => None
  | x :: l' => Some (min_from x l')
  end.

(** [sum(data)]. *)
Definition sum (l : list Q) : Q := fold_left Qplus l 0%Q.

(** [len(data)] as a number. *)
Definition len {A : Type} (l : list A) : Z := Z.of_nat (List.length l).

(** [sorted(data)]: a stable insertion sort. *)
Fixpoint insert_sorted (x : Q) (l : list Q) : list Q :=
  match l with
  | [] => [x]
  | y :: l' => if gt y x then x :: y :: l' else y :: insert_sorted x l'
  end.

Definition sorted (l : list Q) : list Q :=
  fold_left (fun acc x => insert_sorted x acc) l [].

(** [statistics.mean]: the sum over the count; [None] stands for the
    [StatisticsError] on empty data. *)
Definition mean (l : list Q) : option Q :=
  match l with
  | [] => None
  | _ => Some (sum l / inject_Z (len l))%Q
  end.

(** [statistics.median]: sort, then the middle element, or the average of
    the two middle elements when the count is even. *)
Definition median (l : list Q) : option Q :=
  let data := sorted l in
  let n := List.length data in
  if (n =? 0)%nat then None
  else if (n mod 2 =? 1)%nat then nth_error data (n / 2)
  else
    let i := (n / 2)%nat in
    match nth_error data (i - 1), nth_error data i with
    | Some a, Some b => Some ((a + b) / 2)%Q
    | _, _ => None
    end.

(** [os.path.join(a, b)] on POSIX, for two components. *)
Definition starts_with_slash (s : string) : bool :=
  match s with
  | String c _ => Ascii.eqb c "/"
  | EmptyString => false
  end.

Fixpoint ends_with_slash (s : string) : bool :=
  match s with
  | EmptyString => false
  | String c EmptyString => Ascii.eqb c "/"
  | String _ s' => ends_with_slash s'
  end.

Definition path_join (a b : string) : string :=
  if starts_with_slash b then b
  else if (String.eqb a "" || ends_with_slash a)%bool then (a ++ b)%string
  else (a ++ "/" ++ b)%string.

(** [l[k]] resolves an index: negative indices count from the end, and
    [None] stands for the [IndexError] outside [-len, len). *)
Definition index (n : nat) (k : Z) : option nat :=
  if (0 <=? k) && (k <? Z.of_nat n) then Some (Z.to_nat k)
  else if (- Z.of_nat n <=? k) && (k <? 0) then Some (Z.to_nat (k + Z.of_nat n))
  else None.

End Py.

(** ** The monitoring bot ([src/monitoringbot.py]) *)

Module Monitor.

(** [RequestResult]: one probe. Times are in seconds since the epoch,
    [response_time] in milliseconds. *)
Record RequestResult : Type := {
  timestamp : Q;
  status_code : Z;
  response_time : Q;
  endpoint : string;
  success : bool
}.

(** The request that [test_endpoint] hands to the [requests] library. *)
Inductive http_method := POST | GET.

Record http_request : Type := {
  req_method : http_method;
  req_url : string;
  req_json : option (list (string * string));
  req_headers : list (string * string);
  req_timeout : Z
}.

(** What the [requests] library does with a request: it returns a response
    with a status code, or raises. *)
Inductive http_outcome : Type :=
| Responded (status : Z)
| Raised (e : exn).

(** The world of one probe: the transport and the three clock readings
    ([time.time()] before the call, [time.time()] after it, and
    [datetime.now()]). *)
Record probe_env : Type := {
  transport : http_request -> http_outcome;
  clock_start : Q;
  clock_end : Q;
  clock_now : Q
}.

Definition default_payload : list (string * string) :=
  [("Pokemon_Name", "pikachu")]%string.

(** [payload or {"Pokemon_Name": "pikachu"}]: [None] and the empty dict are
    falsy. *)
Definition payload_or_default (payload : option (list (string * string)))
  : list (string * string) :=
  match payload with
  | None | Some [] => default_payload
  | Some p => p
  end.

Definition build_request (base_url endpoint method : string)
    (payload : option (list (string * string))) : http_request :=
  if String.eqb method "POST" then
    {| req_method := POST;
       req_url := (base_url ++ endpoint)%string;
       req_json := Some (payload_or_default payload);
       req_headers := [("Content-Type", "application/json")]%string;
       req_timeout := 30 |}
  else
    {| req_method := GET;
       req_url := (base_url ++ endpoint)%string;
       req_json := None;
       req_headers := [];
       req_timeout := 30 |}.

(** [APIMonitor.test_endpoint]: only [requests.RequestException] is caught;
    any other exception leaves the function. *)
Definition test_endpoint (base_url endpoint method : string)
    (payload : option (list (string * string))) (env : probe_env)
  : result RequestResult :=
  let start_time := clock_start env in
  match transport env (build_request base_url endpoint method payload) with
  | Responded code =>
      let response_time := ((clock_end env - start_time) * 1000)%Q in
      Ok {| timestamp := clock_now env;
            status_code := code;
            response_time := response_time;
            endpoint := endpoint;
            success := code =? 200 |}
  | Raised RequestException =>
      let response_time := ((clock_end env - start_time) * 1000)%Q in
      Ok {| timestamp := clock_now env;
            status_code := 500;
            response_time := response_time;
            endpoint := endpoint;
            success := false |}
  | Raised e => Raise e
  end.

(** *** [check_availability] *)

Record availability_report : Type := {
  av_endpoint : string;
  av_days : Z;
  av_total_requests : Z;
  av_success_count : Z;
  av_error_count : Z;
  availability_percentage : Q;
  av_success_rate : Q
}.

(** The three classes a probe falls in (the printed status label). *)
Inductive probe_class := SUCCESS | ERROR | OTHER.

Definition classify (code : Z) : probe_class :=
  if code =? 200 then SUCCESS
  else if 500 <=? code then ERROR
  else OTHER.

(** One turn of the [for] loop: probe, then update the two counters. *)
Definition availability_step (base_url endpoint : string)
    (counts : Z * Z) (env : probe_env) : result (Z * Z) :=
  let '(success_count, error_count) := counts in
  do r <- test_endpoint base_url endpoint "POST" None env;
  match classify (status_code r) with
  | SUCCESS => Ok (success_count + 1, error_count)
  | ERROR => Ok (success_count, error_count + 1)
  | OTHER => Ok (success_count, error_count)
  end.

(** [for i in range(total_requests)], the [i]-th probe running in world
    [world i]. *)
Fixpoint availability_loop (base_url endpoint : string)
    (world : nat -> probe_env) (i n : nat) (counts : Z * Z)
  : result (Z * Z) :=
  match n with
  | O => Ok counts
  | S n' =>
      do counts' <- availability_step base_url endpoint counts (world i);
      availability_loop base_url endpoint world (S i) n' counts'
  end.

(** Lines 143-147: the guarded division. *)
Definition availability (success_count error_count : Z) : Q :=
  let total_relevant := success_count + error_count in
  if 0 <? total_relevant then
    (inject_Z success_count / inject_Z total_relevant * 100)%Q
  else 0%Q.

Definition check_availability (base_url endpoint : string) (days : Z)
    (world : nat -> probe_env) : result availability_report :=
  let total_requests := Z.min 100 (days * 50) in
  do counts <- availability_loop base_url endpoint world 0
                 (Z.to_nat total_requests) (0, 0);
  let '(success_count, error_count) := counts in
  Ok {| av_endpoint := endpoint;
        av_days := days;
        av_total_requests := total_requests;
        av_success_count := success_count;
        av_error_count := error_count;
        availability_percentage := availability success_count error_count;
        av_success_rate :=
          if 0 <? total_requests then
            (inject_Z success_count / inject_Z total_requests * 100)%Q
          else 0%Q |}.

(** *** [check_latency] *)

Record latency_report : Type := {
  lr_endpoint : string;
  lr_duration_minutes : Z;
  lr_total_requests : Z;
  avg_latency : Q;
  min_latency : Q;
  max_latency : Q;
  median_latency : Q;
  lr_success_rate : Q
}.

(** [sum(1 for r in results if r.success)]. *)
Definition count_success (results : list RequestResult) : Z :=
  Py.len (List.filter success results).

(** Lines 99-111: the report over the collected results; [Ok None] is the
    empty dict returned when nothing was collected. *)
Definition latency_summary (endpoint : string) (duration_minutes : Z)
    (results : list RequestResult) : result (option latency_report) :=
  match results with
  | [] => Ok None
  | _ =>
      let latencies := List.map response_time results in
      match Py.mean latencies, Py.min latencies, Py.max latencies,
            Py.median latencies with
      | Some avg, Some mn, Some mx, Some med =>
          Ok (Some {| lr_endpoint := endpoint;
                      lr_duration_minutes := duration_minutes;
                      lr_total_requests := Py.len results;
                      avg_latency := avg;
                      min_latency := mn;
                      max_latency := mx;
                      median_latency := med;
                      lr_success_rate :=
                        (inject_Z (count_success results)
                         / inject_Z (Py.len results) * 100)%Q |})
      | _, _, _, _ => Raise (OtherError "empty data")
      end
  end.

(** One turn of the [while] loop as the world presents it: the clock read
    by the loop guard, the world of the probe, and whether the operator
    interrupts the two-second sleep. *)
Record latency_turn : Type := {
  guard_clock : Q;
  turn_probe : probe_env;
  sleep_interrupted : bool
}.

(** The sampling loop over a finite prefix of the world.  [None] means that
    the prefix ended while the loop was still running. *)
Fixpoint latency_loop (base_url endpoint : string) (end_time : Q)
    (turns : list latency_turn) (results : list RequestResult)
  : option (result (list RequestResult)) :=
  match turns with
  | [] => None
  | t :: turns' =>
      if Py.gt end_time (guard_clock t) then
        match test_endpoint base_url endpoint "POST" None (turn_probe t) with
        | Ok r =>
            let results' := results ++ [r] in
            if sleep_interrupted t then Some (Ok results')
            else latency_loop base_url endpoint end_time turns' results'
        | Raise KeyboardInterrupt => Some (Ok results)
        | Raise e => Some (Raise e)
        end
      else Some (Ok results)
  end.

Definition check_latency (base_url endpoint : string) (duration_minutes : Z)
    (start_time : Q) (turns : list latency_turn)
  : option (result (option latency_report)) :=
  let end_time := (start_time + inject_Z (duration_minutes * 60))%Q in
  match latency_loop base_url endpoint end_time turns [] with
  | None => None
  | Some (Raise e) => Some (Raise e)
  | Some (Ok results) =>
      Some (latency_summary endpoint duration_minutes results)
  end.

(** *** [_draw_ascii_graph] *)

(** The three characters of the grid: [' '], the point marker and the
    vertical connector. *)
Inductive cell := Blank | Dot | Bar.

Definition cell_eqb (a b : cell) : bool :=
  match a, b with
  | Blank, Blank | Dot, Dot | Bar, Bar => true
  | _, _ => false
  end.

Abbreviation grid := (list (list cell)).

Definition height : Z := 15.

(** The row of a value, as computed inside the plotting loop. *)
Definition point_row (min_val max_val value : Q) : Z :=
  if Py.gt max_val min_val then
    let normalized := ((value - min_val) / (max_val - min_val))%Q in
    Py.int (inject_Z (height - 1) * (1 - normalized))
  else height / 2.

Definition index_error : exn := OtherError "list index out of range".

(** [graph[y][x]] *)
Definition get_cell (graph : grid) (y : Z) (x : nat) : result cell :=
  match Py.index (List.length graph) y with
  | None => Raise index_error
  | Some r =>
      match graph !! r with
      | None => Raise index_error
      | Some row =>
          match row !! x with
          | None => Raise index_error
          | Some c => Ok c
          end
      end
  end.

(** [graph[y][x] = c] *)
Definition set_cell (graph : grid) (y : Z) (x : nat) (c : cell)
  : result grid :=
  match Py.index (List.length graph) y with
  | None => Raise index_error
  | Some r =>
      match graph !! r with
      | None => Raise index_error
      | Some row =>
          if (x <? List.length row)%nat
          then Ok (<[r := <[x := c]> row]> graph)
          else Raise index_error
      end
  end.

(** [for line_y in range(start_y, end_y + 1)], as [n] turns from [line_y]:
    blank cells of column [x] become connectors (or a point marker when
    both ends are on one row). *)
Fixpoint draw_line (graph : grid) (x : nat) (start_y end_y line_y : Z)
    (n : nat) : result grid :=
  match n with
  | O => Ok graph
  | S n' =>
      do c <- get_cell graph line_y x;
      do graph' <- (if cell_eqb c Blank
                    then set_cell graph line_y x
                           (if negb (start_y =? end_y) then Bar else Dot)
                    else Ok graph);
      draw_line graph' x start_y end_y (line_y + 1) n'
  end.

(** The body of [for i, value in enumerate(data)]. *)
Definition plot_point (data : list Q) (min_val max_val : Q)
    (graph : grid) (i : nat) (value : Q) : result grid :=
  let y := point_row min_val max_val value in
  do graph1 <- set_cell graph y i Dot;
  if (0 <? i)%nat then
    match data !! (i - 1)%nat with
    | None => Raise index_error
    | Some prev_value =>
        let prev_y := point_row min_val max_val prev_value in
        (* start_y, end_y = sorted([prev_y, y]) *)
        let start_y := Z.min prev_y y in
        let end_y := Z.max prev_y y in
        draw_line graph1 (i - 1) start_y end_y start_y
          (Z.to_nat (end_y + 1 - start_y))
    end
  else Ok graph1.

Fixpoint plot_from (data : list Q) (min_val max_val : Q) (graph : grid)
    (i : nat) (rest : list Q) : result grid :=
  match rest with
  | [] => Ok graph
  | value :: rest' =>
      do graph' <- plot_point data min_val max_val graph i value;
      plot_from data min_val max_val graph' (S i) rest'
  end.

(** What the function shows: the ["No data to display"] line or the grid.
    The arguments [labels] and [data_type] only feed the printed title, axis
    and statistics and are left out. *)
Inductive drawing := NoData | Graph (g : grid).

Definition _draw_ascii_graph (data : list Q) : result drawing :=
  match Py.max data, Py.min data with
  | Some max_val, Some min_val =>
      let width := List.length data in
      let graph :=
        List.map (fun _ => List.map (fun _ => Blank) (seq 0 width))
                 (seq 0 (Z.to_nat height)) in
      do graph' <- plot_from data min_val max_val graph 0 data;
      Ok (Graph graph')
  | _, _ => Ok NoData
  end.

End Monitor.

(** ** The HTTP service ([src/POC-sem5/app]) *)

Module Api.

Local Open Scope string_scope.

(** *** Effects

    A handler leaves a trace of what it did to the outside world: log
    records, queries sent to the store, and file-system checks.  The texts
    of log records are kept without their formatted figures (durations,
    value lists). *)

Inductive level := INFO | WARNING | ERROR.

Inductive event : Type :=
| Log (lvl : level) (logger : string) (message : string)
| StoreQuery (table column pattern : string)
| HttpGet (url : string)
| PathExists (path : string).

Definition M (A : Type) : Type := (list event * result A)%type.

Definition pure {A : Type} (a : A) : M A := ([], Ok a).

Definition raise {A : Type} (e : exn) : M A := ([], Raise e).

Definition emit (ev : event) : M unit := ([ev], Ok tt).

Definition and_then {A B : Type} (m : M A) (k : A -> M B) : M B :=
  match m with
  | (tr, Ok a) => let '(tr', r) := k a in ((tr ++ tr')%list, r)
  | (tr, Raise e) => (tr, Raise e)
  end.

(** [try: m  except Exception as e: handler e] *)
Definition try_except {A : Type} (m : M A) (handler : exn -> M A) : M A :=
  match m with
  | (tr, Raise e) =>
      if is_Exception e
      then let '(tr', r) := handler e in ((tr ++ tr')%list, r)
      else (tr, Raise e)
  | ok => ok
  end.

Notation "'run' x <- m ; k" := (and_then m (fun x => k))
  (at level 10, x name, m at level 100, k at level 200).
Notation "'exec' m ; k" := (and_then m (fun _ => k))
  (at level 10, m at level 100, k at level 200).

Definition trace {A : Type} (m : M A) : list event := fst m.
Definition outcome {A : Type} (m : M A) : result A := snd m.

(** [str(e)] *)
Definition exn_str (e : exn) : string :=
  match e with
  | RequestException => "request failed"
  | KeyboardInterrupt => ""
  | HTTPException _ detail => detail
  | OtherError msg => msg
  end.

(** [core/logging_config.py], [log_execution_time]: both wrappers log the
    start, run the function, log its completion or its failure, and
    re-raise. *)
Definition log_execution_time {A : Type} (logger function_name : string)
    (func : M A) : M A :=
  exec emit (Log INFO logger ("Starting execution - " ++ function_name));
  try_except
    (run result <- func;
     exec emit (Log INFO logger
                 ("Completed execution - " ++ function_name));
     pure result)
    (fun e =>
       exec emit (Log ERROR logger
                   ("Failed execution - " ++ function_name
                    ++ " - Error: " ++ exn_str e));
       raise e).

(** *** [features/search/repositories.py] *)

(** A store row: column name to number. *)
Definition row : Type := gmap string Z.

(** The store client: the answer of
    [table(t).select("*").ilike(column, pattern).execute()], the list
    [response.data] or an exception. *)
Definition client : Type := string -> string -> string -> result (list row).

(** [core/database.py], [get_supabase]: hands out the module-level
    client. *)
Definition get_supabase (supabase : client) : M client := pure supabase.

Definition stats_logger : string := "pokemon_stats".

Definition query (supabase : client) (table column pattern : string)
  : M (list row) :=
  exec emit (StoreQuery table column pattern);
  ([], supabase table column pattern).

Definition get_stats_from_db (supabase0 : client) (pokemon_name : string)
  : M (list (option Z)) :=
  log_execution_time stats_logger "get_stats_from_db"
    (exec emit (Log INFO stats_logger
                 ("Fetching stats for Pokemon: " ++ pokemon_name));
     run supabase <- get_supabase supabase0;
     let search_name := Py.lower pokemon_name in
     try_except
       (exec emit (Log INFO stats_logger
                    ("Executing database query for: " ++ search_name));
        run data <- query supabase "stats" "Name" search_name;
        match data with
        | record :: _ =>
            let stats := [ record !! "HP";
                           record !! "Attack";
                           record !! "Defense";
                           record !! "Sp. Atk";
                           record !! "Sp. Def";
                           record !! "Speed" ] in
            exec emit (Log INFO stats_logger
                        ("Successfully retrieved stats for "
                         ++ pokemon_name));
            pure stats
        | [] =>
            exec emit (Log WARNING stats_logger
                        ("No stats found for Pokemon: " ++ pokemon_name));
            pure []
        end)
       (fun e =>
          exec emit (Log ERROR stats_logger
                      ("Database error while fetching stats for "
                       ++ pokemon_name ++ ": " ++ exn_str e));
          raise e)).

Definition default_base_url : string := "http://localhost:8000".

Definition get_image_url (pokemon_name base_url : string) : M string :=
  log_execution_time stats_logger "get_image_url"
    (exec emit (Log INFO stats_logger
                 ("Generating image URL for Pokemon: " ++ pokemon_name));
     let url := (base_url ++ "/images/" ++ Py.lower pokemon_name
                 ++ "/0.jpg")%string in
     exec emit (Log INFO stats_logger ("Generated image URL: " ++ url));
     pure url).

(** *** Responses

    What FastAPI makes of a handler: a returned dict is a 200 JSON
    response, a [FileResponse] a 200 response of its media type, a raised
    [HTTPException] a response of its status whose JSON body carries the
    detail; any other exception leaves the handler. *)

Inductive json := JStr (s : string) | JNum (q : Q).

Inductive returned : Type :=
| Dict (fields : list (string * json))
| FileResponse (path media_type : string).

Inductive body := JsonBody (fields : list (string * json)) | FileBody (path : string).

Record response : Type := {
  status : Z;
  content_type : string;
  content : body
}.

Definition serve (r : result returned) : result response :=
  match r with
  | Ok (Dict fields) =>
      Ok {| status := 200; content_type := "application/json";
            content := JsonBody fields |}
  | Ok (FileResponse path media_type) =>
      Ok {| status := 200; content_type := media_type;
            content := FileBody path |}
  | Raise (HTTPException code detail) =>
      Ok {| status := code; content_type := "application/json";
            content := JsonBody [("detail", JStr detail)] |}
  | Raise e => Raise e
  end.

(** [dict[key]] on a JSON object. *)
Fixpoint field (key : string) (fields : list (string * json)) : option json :=
  match fields with
  | [] => None
  | (k, v) :: rest => if String.eqb k key then Some v else field key rest
  end.

Definition body_field (key : string) (r : response) : option json :=
  match content r with
  | JsonBody fields => field key fields
  | FileBody _ => None
  end.

(** *** [main.py], [health_check] *)

Definition api_logger : string := "pokemon_main_api".

(** [check] is the call [get_supabase()] of the handler. *)
Definition health_check (check : M client) (now : Q) : M returned :=
  log_execution_time api_logger "health_check"
    (exec emit (Log INFO api_logger "Health check requested");
     try_except
       (run supabase <- check;
        exec emit (Log INFO api_logger "Database connection test successful");
        pure (Dict [ ("status", JStr "healthy");
                     ("service", JStr "pokemon-api");
                     ("database", JStr "connected");
                     ("timestamp", JNum now) ]))
       (fun e =>
          exec emit (Log ERROR api_logger
                      ("Health check failed: " ++ exn_str e));
          pure (Dict [ ("status", JStr "unhealthy");
                       ("service", JStr "pokemon-api");
                       ("database", JStr "disconnected");
                       ("error", JStr (exn_str e));
                       ("timestamp", JNum now) ]))).

(** *** [features/poke_img/routes.py], [get_image_fallback] *)

Definition IMAGE_FOLDER (cwd : string) : string :=
  Py.path_join cwd "app/static/images".

Definition path_exists (fs : string -> bool) (path : string) : M bool :=
  exec emit (PathExists path);
  pure (fs path).

Definition get_image_fallback (cwd : string) (fs : string -> bool)
    (pokemon_name : string) : M returned :=
  let filename := (Py.lower pokemon_name ++ ".png")%string in
  let image_path := Py.path_join (IMAGE_FOLDER cwd) filename in
  run found <- path_exists fs image_path;
  if found then pure (FileResponse image_path "image/png")
  else raise (HTTPException 404 "Image not found").

End Api.

(** ** Notions used to state the properties *)

Module Props.

Import Monitor Api.

(** The trace holds log records only: nothing was sent to the store, to the
    network or to the file system. *)
Definition is_log (ev : event) : bool :=
  match ev with
  | Log _ _ _ => true
  | _ => false
  end.

(** The transport of a probe answers or fails with a
    [requests.RequestException]; it raises nothing else. *)
Definition transport_failure_only (env : probe_env) : Prop :=
  forall req e, transport env req = Raised e -> e = RequestException.

(** The status codes recorded for the probes [i], [i+1], ..., [i+n-1], up
    to the first probe that raises. *)
Fixpoint probe_statuses (base_url endpoint : string)
    (world : nat -> probe_env) (i n : nat) : list Z :=
  match n with
  | O => []
  | S n' =>
      match test_endpoint base_url endpoint "POST" None (world i) with
      | Ok r => status_code r :: probe_statuses base_url endpoint world (S i) n'
      | Raise _ => []
      end
  end.

Definition count_status (p : Z -> bool) (statuses : list Z) : Z :=
  Py.len (List.filter p statuses).

Definition is_200 (code : Z) : bool := code =? 200.
Definition is_5xx (code : Z) : bool := 500 <=? code.

(** A result as [test_endpoint] builds it: [success] is set exactly for
    status 200. *)
Definition well_formed (r : RequestResult) : Prop :=
  success r = (status_code r =? 200).

(** The row formula as the specification writes it, with [round]. *)
Definition rounded_row (min_val max_val value : Q) : Z :=
  Py.round (inject_Z (height - 1)
            * (1 - (value - min_val) / (max_val - min_val)))%Q.

(** [graph[y][x]] for a row in range, [None] outside the grid. *)
Definition cell_at (g : grid) (y : Z) (x : nat) : option cell :=
  match get_cell g y x with
  | Ok c => Some c
  | Raise _ => None
  end.

(** The cell at row [r] and column [x], both counted from 0. *)
Definition lookup_cell (g : grid) (r x : nat) : option cell :=
  match g !! r with
  | Some row => row !! x
  | None => None
  end.

(** A grid of 15 rows of [w] cells. *)
Definition grid_ok (w : nat) (g : grid) : Prop :=
  List.length g = 15%nat /\ Forall (fun row => List.length row = w) g.

(** Every point marker of [g] is still in [g']. *)
Definition dots_kept (g g' : grid) : Prop :=
  forall r x, lookup_cell g r x = Some Dot -> lookup_cell g' r x = Some Dot.

(** Order statistics of a list of numbers, up to equality of rationals. *)
Definition is_minimum (m : Q) (l : list Q) : Prop :=
  Exists (fun x => x == m)%Q l /\ Forall (fun x => m <= x)%Q l.

Definition is_maximum (m : Q) (l : list Q) : Prop :=
  Exists (fun x => x == m)%Q l /\ Forall (fun x => x <= m)%Q l.

Definition is_mean (m : Q) (l : list Q) : Prop :=
  (m * inject_Z (Py.len l) == fold_right Qplus 0 l)%Q.

(** [m] is the median of [l]: the middle element of [l] in increasing
    order, or the average of the two middle elements. *)
Definition is_median (m : Q) (l : list Q) : Prop :=
  exists s : list Q,
    Permutation s l /\
    StronglySorted Qle s /\
    let n := List.length l in
    if Nat.odd n
    then exists a, nth_error s (n / 2) = Some a /\ (m == a)%Q
    else exists a b, nth_error s (n / 2 - 1) = Some a /\
                     nth_error s (n / 2) = Some b /\
                     (m == (a + b) / 2)%Q.

End Props.

(** ** Sample worlds, used to run the definitions *)

Module Examples.

Import Monitor Api.

Definition base_url : string := "http://localhost:8000".
Definition search : string := "/poke/search".

(** A probe answered with [code] after a tenth of a second. *)
Definition answering (code : Z) : probe_env :=
  {| transport := fun _ => Responded code;
     clock_start := 0; clock_end := 1 # 10; clock_now := 1 # 10 |}.

(** A probe whose connection is refused. *)
Definition unreachable : probe_env :=
  {| transport := fun _ => Raised RequestException;
     clock_start := 0; clock_end := 1 # 10; clock_now := 1 # 10 |}.

(** Fifty probes: forty answered 200, ten refused. *)
Definition mostly_up (i : nat) : probe_env :=
  if (i <? 40)%nat then answering 200 else unreachable.

(** Every probe answered 404. *)
Definition all_not_found (i : nat) : probe_env := answering 404.

Definition report_mostly_up : availability_report :=
  {| av_endpoint := search; av_days := 1; av_total_requests := 50;
     av_success_count := 40; av_error_count := 10;
     availability_percentage := (inject_Z 40 / inject_Z 50 * 100)%Q;
     av_success_rate := (inject_Z 40 / inject_Z 50 * 100)%Q |}.

Definition report_all_not_found : availability_report :=
  {| av_endpoint := search; av_days := 1; av_total_requests := 50;
     av_success_count := 0; av_error_count := 0;
     availability_percentage := 0%Q;
     av_success_rate := (inject_Z 0 / inject_Z 50 * 100)%Q |}.

(** Three answered probes with latencies 10, 20 and 30 ms. *)
Definition sample (latency : Q) : RequestResult :=
  {| timestamp := 0; status_code := 200; response_time := latency;
     endpoint := search; success := true |}.

Definition three_samples : list RequestResult :=
  [sample 10; sample 20; sample 30].

(** A store with one row, matched by ["pikachu"]. *)
Definition pikachu_row : row :=
  <["HP" := 35]> (<["Attack" := 55]> (<["Defense" := 40]>
    (<["Sp. Atk" := 50]> (<["Sp. Def" := 50]> (<["Speed" := 90]> ∅))))).

Definition one_row_store : client :=
  fun _ _ pattern =>
    if String.eqb pattern "pikachu" then Ok [pikachu_row] else Ok [].

(** A file system holding one image. *)
Definition one_image (path : string) : bool :=
  String.eqb path "/srv/app/static/images/pikachu.png".

End Examples.

(** ** [render_graph] and the shape of a drawn grid *)

Module Render.

Import Monitor Props.

(** The value generated for day [i]: a latency between 50 and 200 ms when the
    lowercased [data_type] is ["latency"], an availability between 85 and 100
    percent otherwise. *)
Definition sample_value (data_type : string) (i : Z) : Z :=
  if String.eqb (Py.lower data_type) "latency" then
    let value := 50 + (i * 10) + (i mod 3 * 20) in
    Z.min value 200
  else
    let value := 85 + (i * 2) + (i mod 2 * 5) in
    Z.min value 100.

(** [for i in range(days): data_points.append(...)] *)
Definition data_points (data_type : string) (days : Z) : list Q :=
  List.map (fun i : nat => inject_Z (sample_value data_type (Z.of_nat i)))
           (seq 0 (Z.to_nat days)).


(** The cell is there and blank. *)
Definition is_blank (c : option cell) : bool :=
  match c with
  | Some Blank => true
  | _ => false
  end.

(** The row of the sample in column [x], when there is one. *)
Definition row_of (data : list Q) (min_val max_val : Q) (x : nat)
  : option Z :=
  match data !! x with
  | Some v => Some (point_row min_val max_val v)
  | None => None
  end.

(** The content of the cell at row [r] of column [x] once the points of the
    columns below [k] have been plotted: the marker of the column's own
    sample, a connector on the rows that lead to the row of the next sample
    when that sample has been plotted too, and a blank elsewhere. *)
Definition cell_after (data : list Q) (min_val max_val : Q) (k : nat)
    (r : Z) (x : nat) : cell :=
  match row_of data min_val max_val x with
  | Some a =>
      if (x <? k)%nat then
        if r =? a then Dot
        else
          match row_of data min_val max_val (S x) with
          | Some b =>
              if (S x <? k)%nat && (Z.min a b <=? r) && (r <=? Z.max a b)
              then Bar else Blank
          | None => Blank
          end
      else Blank
  | None => Blank
  end.

(** The finished grid. *)
Definition expected_cell (data : list Q) (min_val max_val : Q)
    (r : Z) (x : nat) : cell :=
  cell_after data min_val max_val (List.length data) r x.

(** The grid drawn for the samples 10, 20, 10 and for 5, 5. *)
Definition zigzag : list Q := [10; 20; 10]%Q.

Definition zigzag_grid : grid :=
  Eval vm_compute in
    match _draw_ascii_graph zigzag with
    | Ok (Graph g) => g
    | _ => []
    end.

Definition flat : list Q := [5; 5]%Q.

Definition flat_grid : grid :=
  Eval vm_compute in
    match _draw_ascii_graph flat with
    | Ok (Graph g) => g
    | _ => []
    end.

End Render.

(** ** The search orchestrator ([features/search/services.py]) *)

Module Search.

Import Api.

Local Open Scope string_scope.

(** The remote API: what [client.get(url)] followed by [response.json()]
    gives, a JSON object or an exception. *)
Definition remote_api : Type := string -> result (list (string * json)).

Definition http_get_json (remote : remote_api) (url : string)
  : M (list (string * json)) :=
  exec emit (HttpGet url);
  ([], remote url).

(** [data["name"]]: a missing key is a [KeyError]. *)
Definition key_error : exn := OtherError "KeyError: 'name'".

Definition item (data : list (string * json)) (key : string) : M json :=
  match field key data with
  | Some v => pure v
  | None => raise key_error
  end.

Record search_result : Type := {
  sr_name : json;
  sr_stats : list (option Z);
  sr_image : string
}.

(** [search_pokemon]: the remote fetch, then the store lookup, then the
    image URL; the name is read from the remote answer last, when the result
    is put together. *)
Definition search_pokemon (remote : remote_api) (supabase : client)
    (name : string) : M search_result :=
  let poke_api_url := "https://pokeapi.co/api/v2/pokemon/" ++ Py.lower name in
  run data <- http_get_json remote poke_api_url;
  run stats <- get_stats_from_db supabase name;
  run image_url <- get_image_url name default_base_url;
  run canonical <- item data "name";
  pure {| sr_name := canonical; sr_stats := stats; sr_image := image_url |}.

(** The trace sends something to the store. *)
Definition is_store_query (ev : event) : bool :=
  match ev with
  | StoreQuery _ _ _ => true
  | _ => false
  end.

Definition is_http_get (ev : event) : bool :=
  match ev with
  | HttpGet _ => true
  | _ => false
  end.

(** The stats read off an answer of the store. *)
Definition stats_of_answer (answer : result (list row))
  : result (list (option Z)) :=
  match answer with
  | Ok [] => Ok []
  | Ok (record :: _) =>
      Ok [ record !! "HP"; record !! "Attack"; record !! "Defense";
           record !! "Sp. Atk"; record !! "Sp. Def"; record !! "Speed" ]
  | Raise e => Raise e
  end.

(** A remote API that knows one name. *)
Definition pokeapi_sample : remote_api :=
  fun url =>
    if String.eqb url "https://pokeapi.co/api/v2/pokemon/pikachu"
    then Ok [("id", JNum 25); ("name", JStr "pikachu")]
    else Raise (OtherError "JSONDecodeError").

End Search.

(** ** More sample worlds *)

Module Worlds.

Import Monitor.

(** A probe during which the process runs out of memory. *)
Definition out_of_memory : probe_env :=
  {| transport := fun _ => Raised (OtherError "MemoryError");
     clock_start := 0; clock_end := 1 # 10; clock_now := 1 # 10 |}.

(** A probe that the operator interrupts. *)
Definition interrupted : probe_env :=
  {| transport := fun _ => Raised KeyboardInterrupt;
     clock_start := 0; clock_end := 1 # 10; clock_now := 1 # 10 |}.

Definition turn_at (clock : Q) (env : probe_env) : latency_turn :=
  {| guard_clock := clock; turn_probe := env; sleep_interrupted := false |}.

(** Two answered probes, then an interrupt. *)
Definition two_then_interrupt : list latency_turn :=
  [ turn_at 0 (Examples.answering 200);
    turn_at 2 (Examples.answering 503);
    turn_at 4 interrupted ].

Definition two_results : list RequestResult :=
  [ {| timestamp := 1 # 10; status_code := 200;
       response_time := ((1 # 10) - 0) * 1000;
       endpoint := Examples.search; success := true |};
    {| timestamp := 1 # 10; status_code := 503;
       response_time := ((1 # 10) - 0) * 1000;
       endpoint := Examples.search; success := false |} ]%Q.

Definition two_results_report : option latency_report :=
  Eval vm_compute in
    match latency_summary Examples.search 1 two_results with
    | Ok out => out
    | Raise _ => None
    end.

(** A hundred probes answered 200, whatever comes after them. *)
Definition hundred_up_then (rest : probe_env) (i : nat) : probe_env :=
  if (i <? 100)%nat then Examples.answering 200 else rest.

End Worlds.

(** ** Properties of the HTTP service *)

Import Api Props.

Local Open Scope string_scope.

Lemma outcome_log_execution_time {A : Type} (logger fn : string) (m : M A) :
  outcome (log_execution_time logger fn m) = outcome m.
Proof.
  unfold log_execution_time, outcome, and_then, try_except, emit, pure, raise.
  destruct m as [tr [a | e]]; simpl; [reflexivity |].
  destruct (is_Exception e); reflexivity.
Qed.

(** C5: [get_image_url] returns exactly
    [base ++ "/images/" ++ lower name ++ "/0.jpg"], and all it does besides is
    write log records: no request leaves the process and no path is checked.
    With the default base, ["Pikachu"] gives
    ["http://localhost:8000/images/pikachu/0.jpg"]. *)
Theorem get_image_url_is_pure_formatting (pokemon_name base_url : string) :
  outcome (get_image_url pokemon_name base_url)
    = Ok (base_url ++ "/images/" ++ Py.lower pokemon_name ++ "/0.jpg")
  /\ forallb is_log (trace (get_image_url pokemon_name base_url)) = true
  /\ outcome (get_image_url "Pikachu" default_base_url)
       = Ok "http://localhost:8000/images/pikachu/0.jpg".
Proof.
  repeat split; reflexivity.
Qed.

(** C6: the [/health] handler answers 200 whatever the store check does.
    With the check of the source, [get_supabase()], the status is
    ["healthy"].  For any check: when it returns, the status is ["healthy"]
    and there is no ["error"] field; when it raises an [Exception], the
    exception is caught, the status is ["unhealthy"] and the ["error"] field is
    the exception's text.  Only an interrupt, which is no [Exception], leaves
    the handler. *)
Theorem health_check_never_fails (check : M client) (now : Q) :
  (forall supabase : client,
     exists r, serve (outcome (health_check (get_supabase supabase) now)) = Ok r
               /\ status r = 200%Z
               /\ body_field "status" r = Some (JStr "healthy"))
  /\ match outcome check with
     | Ok _ =>
         exists r, serve (outcome (health_check check now)) = Ok r
                   /\ status r = 200%Z
                   /\ body_field "status" r = Some (JStr "healthy")
                   /\ body_field "error" r = None
     | Raise e =>
         if is_Exception e then
           exists r, serve (outcome (health_check check now)) = Ok r
                     /\ status r = 200%Z
                     /\ body_field "status" r = Some (JStr "unhealthy")
                     /\ body_field "error" r = Some (JStr (exn_str e))
         else serve (outcome (health_check check now)) = Raise e
     end.
Proof.
  split.
  - intros supabase. eexists. repeat split.
  - unfold health_check. rewrite outcome_log_execution_time.
    destruct check as [tr [c | e]]; simpl.
    + eexists. repeat split.
    + destruct e; simpl; try (eexists; repeat split); reflexivity.
Qed.

Lemma lower_ascii_slash (c : ascii) :
  Ascii.eqb (Py.lower_ascii c) "/" = Ascii.eqb c "/".
Proof.
  destruct c as [[] [] [] [] [] [] [] []]; reflexivity.
Qed.

Lemma starts_with_slash_filename (name : string) :
  Py.starts_with_slash (Py.lower name ++ ".png") = Py.starts_with_slash name.
Proof.
  destruct name as [| c name]; simpl; [reflexivity | apply lower_ascii_slash].
Qed.

Lemma ends_with_slash_app (a b : string) :
  b <> "" -> Py.ends_with_slash (a ++ b) = Py.ends_with_slash b.
Proof.
  intros Hb. induction a as [| c a IH]; simpl; [reflexivity |].
  rewrite IH. destruct (a ++ b) eqn:E; [| reflexivity].
  destruct a; [destruct (Hb E) | discriminate E].
Qed.

Lemma IMAGE_FOLDER_shape (cwd : string) :
  IMAGE_FOLDER cwd <> "" /\ Py.ends_with_slash (IMAGE_FOLDER cwd) = false.
Proof.
  unfold IMAGE_FOLDER, Py.path_join. simpl.
  destruct (String.eqb cwd "" || Py.ends_with_slash cwd)%bool.
  - split.
    + destruct cwd; simpl; discriminate.
    + rewrite ends_with_slash_app; [reflexivity | discriminate].
  - split.
    + destruct cwd; simpl; discriminate.
    + rewrite ends_with_slash_app; [reflexivity | discriminate].
Qed.

Lemma image_path_in_folder (cwd name : string) :
  Py.starts_with_slash name = false ->
  Py.path_join (IMAGE_FOLDER cwd) (Py.lower name ++ ".png")
    = IMAGE_FOLDER cwd ++ "/" ++ Py.lower name ++ ".png".
Proof.
  intros Hname. unfold Py.path_join at 1.
  rewrite starts_with_slash_filename, Hname.
  destruct (IMAGE_FOLDER_shape cwd) as [Hne Hend]. rewrite Hend.
  destruct (String.eqb_spec (IMAGE_FOLDER cwd) ""); [contradiction | reflexivity].
Qed.

(** C7: for a name taken from the path (it does not begin with a slash), the
    [/image-alt/{name}] handler looks for [lower name ++ ".png"] in the image
    directory; when the file system has it the answer is 200 with content type
    [image/png], otherwise it is 404 with the JSON body
    [{"detail": "Image not found"}]. *)
Theorem get_image_fallback_200_or_404
    (cwd : string) (fs : string -> bool) (pokemon_name : string) :
  Py.starts_with_slash pokemon_name = false ->
  let image_path := IMAGE_FOLDER cwd ++ "/" ++ Py.lower pokemon_name ++ ".png" in
  serve (outcome (get_image_fallback cwd fs pokemon_name))
    = Ok (if fs image_path
          then {| status := 200; content_type := "image/png";
                  content := FileBody image_path |}
          else {| status := 404; content_type := "application/json";
                  content := JsonBody [("detail", JStr "Image not found")] |}).
Proof.
  intros Hname image_path. unfold get_image_fallback.
  rewrite (image_path_in_folder cwd pokemon_name Hname).
  fold image_path. unfold path_exists, and_then, emit, pure, raise, outcome.
  simpl. destruct (fs image_path); reflexivity.
Qed.

(** The image of ["Pikachu"] is found under its lowercased name. *)
Lemma get_image_fallback_200_or_404_witness :
  serve (outcome (get_image_fallback "/srv" Examples.one_image "Pikachu"))
    = Ok {| status := 200; content_type := "image/png";
            content := FileBody "/srv/app/static/images/pikachu.png" |}.
Proof.
  exact (get_image_fallback_200_or_404 "/srv" Examples.one_image "Pikachu"
           eq_refl).
Defined.

(** C4: [get_stats_from_db] sends one query to the store, for the lowercased
    name on column [Name] of table [stats].  When the store answers with no
    row it returns the empty list; when it answers with rows it returns the
    six fields [HP], [Attack], [Defense], [Sp. Atk], [Sp. Def], [Speed] of the
    first row, in this order; an exception of the store passes through.  So a
    returned list has length 0 or 6, and no match is not an error. *)
Theorem get_stats_from_db_zero_or_six (supabase : client) (pokemon_name : string) :
  In (StoreQuery "stats" "Name" (Py.lower pokemon_name))
     (trace (get_stats_from_db supabase pokemon_name))
  /\ match supabase "stats" "Name" (Py.lower pokemon_name) with
     | Ok [] => outcome (get_stats_from_db supabase pokemon_name) = Ok []
     | Ok (record :: _) =>
         outcome (get_stats_from_db supabase pokemon_name)
           = Ok [ record !! "HP"; record !! "Attack"; record !! "Defense";
                  record !! "Sp. Atk"; record !! "Sp. Def"; record !! "Speed" ]
     | Raise e => outcome (get_stats_from_db supabase pokemon_name) = Raise e
     end
  /\ match outcome (get_stats_from_db supabase pokemon_name) with
     | Ok stats => List.length stats = 0%nat \/ List.length stats = 6%nat
     | Raise _ => True
     end.
Proof.
  unfold get_stats_from_db.
  rewrite !outcome_log_execution_time.
  unfold log_execution_time, get_supabase, query, and_then, try_except, emit,
    pure, raise, outcome, trace.
  destruct (supabase "stats" "Name" (Py.lower pokemon_name))
    as [[| record rest] | e]; simpl.
  - split; [auto 10 |]. split; [reflexivity | left; reflexivity].
  - split; [auto 10 |]. split; [reflexivity | right; reflexivity].
  - destruct (is_Exception e) eqn:He; simpl; rewrite ?He; simpl;
      (split; [auto 10 | split; [reflexivity | exact I]]).
Qed.

(** The sample store: ["PIKACHU"] finds the row, ["mew"] finds nothing. *)
Example get_stats_from_db_sample_store :
  outcome (get_stats_from_db Examples.one_row_store "PIKACHU")
    = Ok [Some 35; Some 55; Some 40; Some 50; Some 50; Some 90]%Z
  /\ outcome (get_stats_from_db Examples.one_row_store "mew") = Ok [].
Proof.
  split; vm_compute; reflexivity.
Qed.

(** ** Properties of the monitoring bot *)

Import Monitor.

Local Open Scope Z_scope.

Lemma test_endpoint_cases (base_url endpoint method : string)
    (payload : option (list (string * string))) (env : probe_env) :
  match transport env (build_request base_url endpoint method payload) with
  | Responded code =>
      exists r, test_endpoint base_url endpoint method payload env = Ok r
                /\ status_code r = code
                /\ (success r = true <-> code = 200)
  | Raised RequestException =>
      exists r, test_endpoint base_url endpoint method payload env = Ok r
                /\ status_code r = 500
                /\ success r = false
  | Raised e => test_endpoint base_url endpoint method payload env = Raise e
  end.
Proof.
  unfold test_endpoint.
  destruct (transport env _) as [code | e].
  - eexists. split; [reflexivity |]. split; [reflexivity |]. simpl.
    split; intros H; [apply Z.eqb_eq, H | apply Z.eqb_eq, H].
  - destruct e; try reflexivity. eexists. repeat split.
Qed.

Lemma test_endpoint_returns (base_url endpoint method : string)
    (payload : option (list (string * string))) (env : probe_env) :
  transport_failure_only env ->
  exists r, test_endpoint base_url endpoint method payload env = Ok r.
Proof.
  intros Henv.
  pose proof (test_endpoint_cases base_url endpoint method payload env) as H.
  destruct (transport env _) as [code | e] eqn:E.
  - destruct H as [r [Hr _]]. eauto.
  - rewrite (Henv _ _ E) in H. destruct H as [r [Hr _]]. eauto.
Qed.

Lemma availability_loop_returns (base_url endpoint : string)
    (world : nat -> probe_env) :
  (forall i, transport_failure_only (world i)) ->
  forall n i counts,
    exists counts',
      availability_loop base_url endpoint world i n counts = Ok counts'.
Proof.
  intros Hworld n. induction n as [| n IH]; intros i [s e]; simpl.
  - eauto.
  - unfold availability_step.
    destruct (test_endpoint_returns base_url endpoint "POST" None (world i)
                (Hworld i)) as [r Hr].
    rewrite Hr. simpl. destruct (classify (status_code r)); simpl; apply IH.
Qed.

Lemma latency_loop_never_raises (base_url endpoint : string) (end_time : Q)
    (turns : list latency_turn) :
  Forall (fun t => transport_failure_only (turn_probe t)) turns ->
  forall results e,
    latency_loop base_url endpoint end_time turns results <> Some (Raise e).
Proof.
  induction 1 as [| t turns Ht _ IH]; intros results e; simpl.
  - discriminate.
  - destruct (Py.gt end_time (guard_clock t)); [| discriminate].
    destruct (test_endpoint_returns base_url endpoint "POST" None
                (turn_probe t) Ht) as [r Hr].
    rewrite Hr. destruct (sleep_interrupted t); [discriminate | apply IH].
Qed.

(** C8: [test_endpoint] turns a transport failure into a result with status
    500 and [success = false]; on an answered request the result carries the
    answer's status and [success] holds exactly for 200.  Hence, in a world
    whose transport only answers or fails, the loop of [check_availability]
    runs all its probes and returns a report, and the loop of [check_latency]
    never ends in an exception. *)
Theorem test_endpoint_absorbs_transport_failures
    (base_url endpoint method : string)
    (payload : option (list (string * string))) (env : probe_env) :
  match transport env (build_request base_url endpoint method payload) with
  | Responded code =>
      exists r, test_endpoint base_url endpoint method payload env = Ok r
                /\ status_code r = code
                /\ (success r = true <-> code = 200)
  | Raised RequestException =>
      exists r, test_endpoint base_url endpoint method payload env = Ok r
                /\ status_code r = 500
                /\ success r = false
  | Raised e => test_endpoint base_url endpoint method payload env = Raise e
  end
  /\ (forall (days : Z) (world : nat -> probe_env),
        (forall i, transport_failure_only (world i)) ->
        exists rep,
          check_availability base_url endpoint days world = Ok rep
          /\ av_total_requests rep = Z.min 100 (days * 50))
  /\ (forall (end_time : Q) (turns : list latency_turn)
             (results : list RequestResult) (e : exn),
        Forall (fun t => transport_failure_only (turn_probe t)) turns ->
        latency_loop base_url endpoint end_time turns results
          <> Some (Raise e)).
Proof.
  split; [apply test_endpoint_cases |]. split.
  - intros days world Hworld. unfold check_availability.
    destruct (availability_loop_returns base_url endpoint world Hworld
                (Z.to_nat (Z.min 100 (days * 50))) 0%nat (0, 0))
      as [[s e] Hloop].
    rewrite Hloop. simpl. eexists. split; reflexivity.
  - intros end_time turns results e Hturns.
    apply latency_loop_never_raises, Hturns.
Qed.

Lemma unreachable_fails_only : transport_failure_only Examples.unreachable.
Proof.
  intros req e He. simpl in He. injection He as <-. reflexivity.
Defined.

(** A run of fifty refused probes still yields a report. *)
Lemma test_endpoint_absorbs_transport_failures_witness :
  exists rep,
    check_availability Examples.base_url Examples.search 1
      (fun _ => Examples.unreachable) = Ok rep
    /\ av_total_requests rep = 50.
Proof.
  destruct (test_endpoint_absorbs_transport_failures
              Examples.base_url Examples.search "POST" None
              Examples.unreachable) as [_ [Hav _]].
  destruct (Hav 1 (fun _ => Examples.unreachable)
              (fun _ => unreachable_fails_only)) as [rep [Hrep Htotal]].
  exists rep. split; [exact Hrep | exact Htotal].
Defined.

(** *** Availability *)

Lemma count_status_cons (p : Z -> bool) (c : Z) (l : list Z) :
  count_status p (c :: l) = (if p c then 1 else 0) + count_status p l.
Proof.
  unfold count_status, Py.len. simpl. destruct (p c); simpl; lia.
Qed.

Lemma count_status_nonneg (p : Z -> bool) (l : list Z) :
  0 <= count_status p l.
Proof. unfold count_status, Py.len. lia. Qed.

(** The counters of the loop are the numbers of probes of each class. *)
Lemma availability_loop_counts (base_url endpoint : string)
    (world : nat -> probe_env) (n : nat) :
  forall i s e s' e',
    availability_loop base_url endpoint world i n (s, e) = Ok (s', e') ->
    let statuses := probe_statuses base_url endpoint world i n in
    s' = s + count_status is_200 statuses
    /\ e' = e + count_status is_5xx statuses
    /\ List.length statuses = n.
Proof.
  induction n as [| n IH]; intros i s e s' e'; simpl.
  - intros [= <- <-]. unfold count_status, Py.len. simpl. repeat split; lia.
  - unfold availability_step.
    destruct (test_endpoint base_url endpoint "POST" None (world i))
      as [r | x]; simpl; [| discriminate].
    rewrite !count_status_cons. unfold classify.
    change (is_200 (status_code r)) with (status_code r =? 200).
    change (is_5xx (status_code r)) with (500 <=? status_code r).
    destruct (status_code r =? 200) eqn:E200.
    + apply Z.eqb_eq in E200. intros H. apply IH in H.
      destruct H as [Hs [He Hlen]]. simpl.
      replace (500 <=? status_code r) with false
        by (symmetry; apply Z.leb_gt; lia).
      repeat split; [lia | lia | now f_equal].
    + destruct (500 <=? status_code r) eqn:E500; intros H; apply IH in H;
        destruct H as [Hs [He Hlen]]; simpl;
        (repeat split; [lia | lia | now f_equal]).
Qed.

Lemma availability_when_relevant (s e : Z) :
  0 < s + e ->
  (availability s e == inject_Z s / inject_Z (s + e) * 100)%Q.
Proof.
  intros H. unfold availability.
  destruct (0 <? s + e) eqn:E; [reflexivity |].
  apply Z.ltb_ge in E. lia.
Qed.

Lemma availability_when_irrelevant (s e : Z) :
  s + e <= 0 -> availability s e = 0%Q.
Proof.
  intros H. unfold availability.
  destruct (0 <? s + e) eqn:E; [| reflexivity].
  apply Z.ltb_lt in E. lia.
Qed.

Lemma availability_bounds (s e : Z) :
  0 <= s -> 0 <= e -> (0 <= availability s e <= 100)%Q.
Proof.
  intros Hs He. unfold availability.
  destruct (0 <? s + e) eqn:E.
  - apply Z.ltb_lt in E.
    assert (Hpos : (0 < inject_Z (s + e))%Q)
      by (unfold Qlt; simpl; lia).
    assert (H0 : (0 <= inject_Z s / inject_Z (s + e))%Q).
    { apply Qle_shift_div_l; [exact Hpos |].
      rewrite Qmult_0_l. unfold Qle. simpl. lia. }
    assert (H1 : (inject_Z s / inject_Z (s + e) <= 1)%Q).
    { apply Qle_shift_div_r; [exact Hpos |].
      rewrite Qmult_1_l. unfold Qle. simpl. lia. }
    split.
    + apply Qmult_le_0_compat; [exact H0 | discriminate].
    + apply Qle_trans with (1 * 100)%Q; [| discriminate].
      apply Qmult_le_compat_r; [exact H1 | discriminate].
  - split; discriminate.
Qed.

Lemma check_availability_counts (base_url endpoint : string) (days : Z)
    (world : nat -> probe_env) (rep : availability_report) :
  check_availability base_url endpoint days world = Ok rep ->
  let statuses := probe_statuses base_url endpoint world 0
                    (Z.to_nat (Z.min 100 (days * 50))) in
  av_success_count rep = count_status is_200 statuses
  /\ av_error_count rep = count_status is_5xx statuses
  /\ List.length statuses = Z.to_nat (Z.min 100 (days * 50))
  /\ availability_percentage rep
     = availability (av_success_count rep) (av_error_count rep).
Proof.
  unfold check_availability.
  destruct (availability_loop base_url endpoint world 0
              (Z.to_nat (Z.min 100 (days * 50))) (0, 0))
    as [[s e] | x] eqn:Hloop; simpl; [| discriminate].
  intros [= <-]. simpl.
  apply availability_loop_counts in Hloop.
  destruct Hloop as [Hs [He Hlen]].
  repeat split; [lia | lia | exact Hlen].
Qed.

(** C2: in a run of [check_availability] that returns, [success_count] is the
    number of probes recorded with status 200 and [error_count] the number
    recorded with a status of 500 or more, every probe of the run being
    looked at; when their sum is positive the availability is
    [success_count / (success_count + error_count) * 100], whatever the
    number of probes of the remaining statuses.  On the counts 8 and 2 the
    formula gives 80, on 8 and 0 it gives 100. *)
Theorem availability_is_success_over_relevant
    (base_url endpoint : string) (days : Z) (world : nat -> probe_env)
    (rep : availability_report) :
  check_availability base_url endpoint days world = Ok rep ->
  let statuses := probe_statuses base_url endpoint world 0
                    (Z.to_nat (Z.min 100 (days * 50))) in
  let success_count := count_status is_200 statuses in
  let error_count := count_status is_5xx statuses in
  List.length statuses = Z.to_nat (Z.min 100 (days * 50))
  /\ av_success_count rep = success_count
  /\ av_error_count rep = error_count
  /\ (0 < success_count + error_count ->
      (availability_percentage rep
       == inject_Z success_count / inject_Z (success_count + error_count)
          * 100)%Q)
  /\ (availability 8 2 == 80)%Q
  /\ (availability 8 0 == 100)%Q.
Proof.
  intros Hrep statuses success_count error_count.
  destruct (check_availability_counts _ _ _ _ _ Hrep) as [Hs [He [Hlen Hav]]].
  fold statuses in Hs, He, Hlen. fold success_count in Hs.
  fold error_count in He.
  repeat split; try assumption; try reflexivity.
  intros Hpos. rewrite Hav, Hs, He. apply availability_when_relevant, Hpos.
Qed.

(** Forty probes answered 200 and ten refused: 80 percent. *)
Lemma availability_is_success_over_relevant_witness :
  av_success_count Examples.report_mostly_up = 40
  /\ av_error_count Examples.report_mostly_up = 10
  /\ (availability_percentage Examples.report_mostly_up == 80)%Q.
Proof.
  destruct (availability_is_success_over_relevant
              Examples.base_url Examples.search 1 Examples.mostly_up
              Examples.report_mostly_up eq_refl)
    as [_ [Hs [He [Hav _]]]].
  split; [exact Hs |]. split; [exact He |].
  rewrite (Hav eq_refl). reflexivity.
Defined.

(** C10: the division is guarded.  In a run of [check_availability] that
    returns, when no probe counted as success or error the availability is 0,
    and in every case it lies between 0 and 100. *)
Theorem availability_division_is_guarded
    (base_url endpoint : string) (days : Z) (world : nat -> probe_env)
    (rep : availability_report) :
  check_availability base_url endpoint days world = Ok rep ->
  (av_success_count rep + av_error_count rep = 0 ->
   availability_percentage rep = 0%Q)
  /\ (0 <= availability_percentage rep <= 100)%Q.
Proof.
  intros Hrep.
  destruct (check_availability_counts _ _ _ _ _ Hrep) as [Hs [He [_ Hav]]].
  rewrite Hav. split.
  - intros H0. apply availability_when_irrelevant. lia.
  - apply availability_bounds; [rewrite Hs | rewrite He];
      apply count_status_nonneg.
Qed.

(** Fifty probes answered 404: no relevant probe, availability 0. *)
Lemma availability_division_is_guarded_witness :
  check_availability Examples.base_url Examples.search 1
    Examples.all_not_found = Ok Examples.report_all_not_found
  /\ availability_percentage Examples.report_all_not_found = 0%Q
  /\ (0 <= availability_percentage Examples.report_all_not_found <= 100)%Q.
Proof.
  split; [reflexivity |].
  destruct (availability_division_is_guarded
              Examples.base_url Examples.search 1 Examples.all_not_found
              Examples.report_all_not_found eq_refl) as [Hzero Hbounds].
  split; [apply Hzero; reflexivity | exact Hbounds].
Defined.

(** *** Latency statistics *)

Lemma gt_true (a b : Q) : Py.gt a b = true -> (b < a)%Q.
Proof.
  unfold Py.gt. intros H. apply negb_true_iff in H.
  apply Qnot_le_lt. intros Hle. apply Qle_bool_iff in Hle. congruence.
Qed.

Lemma gt_false (a b : Q) : Py.gt a b = false -> (a <= b)%Q.
Proof.
  unfold Py.gt. intros H. apply negb_false_iff in H.
  apply Qle_bool_iff, H.
Qed.

Lemma min_from_spec (l : list Q) :
  forall best,
    In (Py.min_from best l) (best :: l)
    /\ (Py.min_from best l <= best)%Q
    /\ Forall (fun x => Py.min_from best l <= x)%Q l.
Proof.
  induction l as [| x l IH]; intros best; simpl.
  - split; [auto |]. split; [apply Qle_refl | constructor].
  - destruct (IH (if Py.gt best x then x else best)) as [Hin [Hle Hall]].
    destruct (Py.gt best x) eqn:E.
    + apply gt_true in E. split; [| split].
      * destruct Hin as [<- | Hin]; auto.
      * eapply Qle_trans; [exact Hle | apply Qlt_le_weak, E].
      * constructor; assumption.
    + apply gt_false in E. split; [| split].
      * destruct Hin as [<- | Hin]; auto.
      * exact Hle.
      * constructor; [eapply Qle_trans; eassumption | assumption].
Qed.

Lemma max_from_spec (l : list Q) :
  forall best,
    In (Py.max_from best l) (best :: l)
    /\ (best <= Py.max_from best l)%Q
    /\ Forall (fun x => x <= Py.max_from best l)%Q l.
Proof.
  induction l as [| x l IH]; intros best; simpl.
  - split; [auto |]. split; [apply Qle_refl | constructor].
  - destruct (IH (if Py.gt x best then x else best)) as [Hin [Hle Hall]].
    destruct (Py.gt x best) eqn:E.
    + apply gt_true in E. split; [| split].
      * destruct Hin as [<- | Hin]; auto.
      * eapply Qle_trans; [apply Qlt_le_weak, E | exact Hle].
      * constructor; assumption.
    + apply gt_false in E. split; [| split].
      * destruct Hin as [<- | Hin]; auto.
      * exact Hle.
      * constructor; [eapply Qle_trans; eassumption | assumption].
Qed.

Lemma In_Exists_Qeq (m : Q) (l : list Q) :
  In m l -> Exists (fun x => x == m)%Q l.
Proof.
  intros H. apply List.Exists_exists. exists m.
  split; [exact H | apply Qeq_refl].
Qed.

Lemma min_is_minimum (l : list Q) (m : Q) :
  Py.min l = Some m -> is_minimum m l.
Proof.
  destruct l as [| x l]; simpl; [discriminate |]. intros [= <-].
  destruct (min_from_spec l x) as [Hin [Hle Hall]].
  split; [apply In_Exists_Qeq, Hin | constructor; assumption].
Qed.

Lemma max_is_maximum (l : list Q) (m : Q) :
  Py.max l = Some m -> is_maximum m l.
Proof.
  destruct l as [| x l]; simpl; [discriminate |]. intros [= <-].
  destruct (max_from_spec l x) as [Hin [Hle Hall]].
  split; [apply In_Exists_Qeq, Hin | constructor; assumption].
Qed.

Lemma fold_left_Qplus (l : list Q) :
  forall a, (fold_left Qplus l a == a + fold_right Qplus 0 l)%Q.
Proof.
  induction l as [| x l IH]; intros a; simpl.
  - ring.
  - rewrite IH. ring.
Qed.

Lemma mean_is_mean (l : list Q) (m : Q) :
  Py.mean l = Some m -> is_mean m l.
Proof.
  unfold Py.mean, is_mean, Py.sum.
  destruct l as [| x l]; [discriminate |]. intros [= <-].
  rewrite fold_left_Qplus.
  assert (Hlen : ~ (inject_Z (Py.len (x :: l)) == 0)%Q).
  { unfold Py.len, Qeq. simpl. lia. }
  rewrite Qmult_comm, (Qmult_div_r _ _ Hlen). simpl. ring.
Qed.

Lemma insert_sorted_perm (x : Q) (l : list Q) :
  Permutation (Py.insert_sorted x l) (x :: l).
Proof.
  induction l as [| y l IH]; simpl; [reflexivity |].
  destruct (Py.gt y x); [reflexivity |].
  rewrite IH. apply perm_swap.
Qed.

Lemma insert_sorted_sorted (x : Q) (l : list Q) :
  StronglySorted Qle l -> StronglySorted Qle (Py.insert_sorted x l).
Proof.
  induction 1 as [| y l Hsorted IH Hall]; simpl.
  - constructor; constructor.
  - destruct (Py.gt y x) eqn:E.
    + apply gt_true, Qlt_le_weak in E.
      constructor; [constructor; assumption |].
      constructor; [exact E |].
      eapply List.Forall_impl; [| exact Hall].
      intros z Hz. eapply Qle_trans; eassumption.
    + apply gt_false in E. constructor; [exact IH |].
      apply List.Forall_forall. intros z Hz.
      apply (Permutation_in _ (insert_sorted_perm x l)) in Hz.
      destruct Hz as [<- | Hz]; [exact E |].
      rewrite List.Forall_forall in Hall. apply Hall, Hz.
Qed.

Lemma sorted_from_spec (l : list Q) :
  forall acc,
    StronglySorted Qle acc ->
    StronglySorted Qle (fold_left (fun acc x => Py.insert_sorted x acc) l acc)
    /\ Permutation (fold_left (fun acc x => Py.insert_sorted x acc) l acc)
                   (acc ++ l)%list.
Proof.
  induction l as [| x l IH]; intros acc Hacc; simpl.
  - split; [exact Hacc | now rewrite app_nil_r].
  - destruct (IH (Py.insert_sorted x acc) (insert_sorted_sorted x acc Hacc))
      as [Hs Hp].
    split; [exact Hs |].
    rewrite Hp, insert_sorted_perm. simpl. apply Permutation_middle.
Qed.

Lemma sorted_spec (l : list Q) :
  StronglySorted Qle (Py.sorted l) /\ Permutation (Py.sorted l) l.
Proof.
  unfold Py.sorted. apply (sorted_from_spec l []). constructor.
Qed.

Lemma odd_mod2 (n : nat) : Nat.odd n = (n mod 2 =? 1)%nat.
Proof.
  rewrite <- Nat.bit0_odd. rewrite <- (Nat.bit0_mod n).
  destruct (Nat.testbit n 0); reflexivity.
Qed.

Lemma nth_error_in_range {A : Type} (s : list A) (i : nat) :
  (i < List.length s)%nat -> exists a, nth_error s i = Some a.
Proof.
  intros H. destruct (nth_error s i) as [a |] eqn:E; [eauto |].
  apply nth_error_None in E. lia.
Qed.

Lemma median_is_median (l : list Q) :
  l <> [] -> exists m, Py.median l = Some m /\ is_median m l.
Proof.
  intros Hne. destruct (sorted_spec l) as [Hsorted Hperm].
  assert (Hlen : List.length (Py.sorted l) = List.length l)
    by (apply Permutation_length, Hperm).
  assert (Hpos : (0 < List.length l)%nat)
    by (destruct l; [congruence | simpl; lia]).
  unfold Py.median, is_median. rewrite Hlen.
  destruct (List.length l =? 0)%nat eqn:E0; [apply Nat.eqb_eq in E0; lia |].
  rewrite odd_mod2.
  destruct (List.length l mod 2 =? 1)%nat eqn:Eodd.
  - destruct (nth_error_in_range (Py.sorted l) (List.length l / 2)) as [a Ha].
    { rewrite Hlen. apply Nat.div_lt; lia. }
    exists a. split; [exact Ha |]. exists (Py.sorted l).
    split; [exact Hperm |]. split; [exact Hsorted |].
    exists a. split; [exact Ha | reflexivity].
  - apply Nat.eqb_neq in Eodd.
    assert (Hdiv : (List.length l = 2 * (List.length l / 2))%nat).
    { pose proof (Nat.div_mod (List.length l) 2 ltac:(lia)) as Hdm.
      pose proof (Nat.mod_upper_bound (List.length l) 2 ltac:(lia)). lia. }
    destruct (nth_error_in_range (Py.sorted l) (List.length l / 2 - 1))
      as [a Ha]; [rewrite Hlen; lia |].
    destruct (nth_error_in_range (Py.sorted l) (List.length l / 2))
      as [b Hb]; [rewrite Hlen; lia |].
    rewrite Ha, Hb. exists ((a + b) / 2)%Q. split; [reflexivity |].
    exists (Py.sorted l).
    split; [exact Hperm |]. split; [exact Hsorted |].
    exists a, b. repeat split; [exact Ha | exact Hb].
Qed.

Lemma test_endpoint_well_formed (base_url endpoint method : string)
    (payload : option (list (string * string))) (env : probe_env)
    (r : RequestResult) :
  test_endpoint base_url endpoint method payload env = Ok r -> well_formed r.
Proof.
  unfold test_endpoint, well_formed.
  destruct (transport env _) as [code | e].
  - intros [= <-]. reflexivity.
  - destruct e; try discriminate. intros [= <-]. reflexivity.
Qed.

Lemma latency_loop_well_formed (base_url endpoint : string) (end_time : Q)
    (turns : list latency_turn) :
  forall results out,
    latency_loop base_url endpoint end_time turns results = Some (Ok out) ->
    Forall well_formed results -> Forall well_formed out.
Proof.
  induction turns as [| t turns IH]; intros results out; simpl;
    [discriminate |].
  destruct (Py.gt end_time (guard_clock t));
    [| intros [= <-]; auto].
  destruct (test_endpoint base_url endpoint "POST" None (turn_probe t))
    as [r | e] eqn:Hr.
  - assert (Hall : Forall well_formed results ->
                   Forall well_formed (results ++ [r])).
    { intros H. apply List.Forall_app. split; [exact H |].
      constructor; [| constructor].
      eapply test_endpoint_well_formed, Hr. }
    destruct (sleep_interrupted t).
    + intros [= <-]. exact Hall.
    + intros Hloop H. eapply IH; [exact Hloop | apply Hall, H].
  - destruct e; try discriminate. intros [= <-]. auto.
Qed.

Lemma count_success_is_count_200 (results : list RequestResult) :
  Forall well_formed results ->
  count_success results
    = count_status is_200 (List.map status_code results).
Proof.
  unfold count_success, count_status, Py.len.
  induction 1 as [| r results Hr _ IH]; simpl; [reflexivity |].
  unfold is_200 at 1. rewrite <- Hr.
  destruct (success r); simpl; lia.
Qed.

(** C9: over a non-empty list of collected results, [check_latency] reports
    the number of results, the arithmetic mean, the median, the least and the
    greatest of their latencies, and as success rate the number of successful
    results over the number of results, times 100, a result made by
    [test_endpoint] being successful exactly for status 200.  The report of a
    run of [check_latency] is this summary of the results its loop collected.
    For the latencies 10, 20, 30 the mean is 20, the median 20, the least 10
    and the greatest 30. *)
Theorem check_latency_reports_statistics
    (endpoint : string) (duration_minutes : Z)
    (results : list RequestResult) :
  (results <> [] ->
   let latencies := List.map response_time results in
   exists rep,
     latency_summary endpoint duration_minutes results = Ok (Some rep)
     /\ lr_total_requests rep = Py.len results
     /\ is_mean (avg_latency rep) latencies
     /\ is_median (median_latency rep) latencies
     /\ is_minimum (min_latency rep) latencies
     /\ is_maximum (max_latency rep) latencies
     /\ (lr_success_rate rep
         == inject_Z (count_success results) / inject_Z (Py.len results)
            * 100)%Q
     /\ (Forall well_formed results ->
         count_success results
           = count_status is_200 (List.map status_code results)))
  /\ (forall (base_url : string) (start_time : Q)
             (turns : list latency_turn) (out : option latency_report),
        check_latency base_url endpoint duration_minutes start_time turns
          = Some (Ok out) ->
        exists collected,
          latency_loop base_url endpoint
            (start_time + inject_Z (duration_minutes * 60))%Q turns []
            = Some (Ok collected)
          /\ Forall well_formed collected
          /\ latency_summary endpoint duration_minutes collected = Ok out)
  /\ (exists rep,
        latency_summary endpoint duration_minutes Examples.three_samples
          = Ok (Some rep)
        /\ (avg_latency rep == 20)%Q
        /\ (median_latency rep == 20)%Q
        /\ (min_latency rep == 10)%Q
        /\ (max_latency rep == 30)%Q).
Proof.
  split; [| split].
  - intros Hne latencies.
    assert (Hlat : latencies <> [])
      by (subst latencies; destruct results; [congruence | discriminate]).
    destruct (median_is_median latencies Hlat) as [med [Hmed Hmedian]].
    destruct (Py.mean latencies) as [avg |] eqn:Havg;
      [| destruct latencies; [congruence | discriminate]].
    destruct (Py.min latencies) as [mn |] eqn:Hmin;
      [| destruct latencies; [congruence | discriminate]].
    destruct (Py.max latencies) as [mx |] eqn:Hmax;
      [| destruct latencies; [congruence | discriminate]].
    unfold latency_summary. fold latencies.
    rewrite Havg, Hmin, Hmax, Hmed.
    destruct results as [| r results]; [congruence |].
    eexists. split; [reflexivity |]. simpl.
    split; [reflexivity |].
    split; [apply mean_is_mean, Havg |].
    split; [exact Hmedian |].
    split; [apply min_is_minimum, Hmin |].
    split; [apply max_is_maximum, Hmax |].
    split; [reflexivity | apply count_success_is_count_200].
  - intros base_url start_time turns out. unfold check_latency.
    destruct (latency_loop base_url endpoint _ turns [])
      as [[collected | e] |] eqn:Hloop; try discriminate.
    intros [= Hout]. exists collected.
    split; [reflexivity |]. split; [| exact Hout].
    eapply latency_loop_well_formed; [exact Hloop | constructor].
  - eexists. split; [reflexivity |]. repeat split.
Qed.

(** The summary of the three sample results. *)
Lemma check_latency_reports_statistics_witness :
  exists rep,
    latency_summary Examples.search 5 Examples.three_samples = Ok (Some rep)
    /\ lr_total_requests rep = 3
    /\ is_median (median_latency rep)
         (List.map response_time Examples.three_samples).
Proof.
  destruct (check_latency_reports_statistics Examples.search 5
              Examples.three_samples) as [Hsummary _].
  destruct (Hsummary ltac:(discriminate))
    as [rep [Hrep [Htotal [_ [Hmedian _]]]]].
  exists rep. split; [exact Hrep |]. split; [exact Htotal | exact Hmedian].
Defined.

(** *** The rows of the graph *)

Lemma int_of_nonneg (q : Q) : (0 <= q)%Q -> Py.int q = Qfloor q.
Proof.
  intros H. unfold Py.int. apply Qle_bool_iff in H. rewrite H. reflexivity.
Qed.

Lemma normalized_bounds (min_val max_val value : Q) :
  (min_val < max_val)%Q -> (min_val <= value <= max_val)%Q ->
  (0 <= (value - min_val) / (max_val - min_val) <= 1)%Q.
Proof.
  intros Hlt [Hlo Hhi].
  assert (Hd : (0 < max_val - min_val)%Q) by lra.
  split.
  - apply Qle_shift_div_l; [exact Hd | lra].
  - apply Qle_shift_div_r; [exact Hd | lra].
Qed.

Lemma point_row_spread (min_val max_val value : Q) :
  (min_val < max_val)%Q ->
  point_row min_val max_val value
    = Py.int (14 * (1 - (value - min_val) / (max_val - min_val)))%Q.
Proof.
  intros Hlt. unfold point_row.
  destruct (Py.gt max_val min_val) eqn:E; [reflexivity |].
  apply gt_false in E. lra.
Qed.

Lemma point_row_flat (min_val max_val value : Q) :
  (max_val <= min_val)%Q -> point_row min_val max_val value = 7.
Proof.
  intros Hle. unfold point_row.
  destruct (Py.gt max_val min_val) eqn:E; [| reflexivity].
  apply gt_true in E. lra.
Qed.

Lemma point_row_floor (min_val max_val value : Q) :
  (min_val < max_val)%Q -> (min_val <= value <= max_val)%Q ->
  point_row min_val max_val value
    = Qfloor (14 * (1 - (value - min_val) / (max_val - min_val)))%Q.
Proof.
  intros Hlt Hv. rewrite (point_row_spread _ _ _ Hlt).
  apply int_of_nonneg.
  pose proof (normalized_bounds _ _ _ Hlt Hv) as Hn.
  set (n := ((value - min_val) / (max_val - min_val))%Q) in *. lra.
Qed.

Lemma point_row_bounds (min_val max_val value : Q) :
  (min_val <= value <= max_val)%Q ->
  0 <= point_row min_val max_val value <= 14.
Proof.
  intros Hv. destruct (Qlt_le_dec min_val max_val) as [Hlt | Hle].
  - rewrite (point_row_floor _ _ _ Hlt Hv).
    pose proof (normalized_bounds _ _ _ Hlt Hv) as Hn.
    set (n := ((value - min_val) / (max_val - min_val))%Q) in *.
    split.
    + assert (H : (0 <= 14 * (1 - n))%Q) by lra.
      apply Qfloor_resp_le in H. exact H.
    + assert (H : (14 * (1 - n) <= 14)%Q) by lra.
      apply Qfloor_resp_le in H. exact H.
  - rewrite (point_row_flat _ _ _ Hle). lia.
Qed.

Lemma point_row_of_min (min_val max_val value : Q) :
  (min_val < max_val)%Q -> (value == min_val)%Q ->
  point_row min_val max_val value = 14.
Proof.
  intros Hlt Hv.
  rewrite (point_row_floor _ _ _ Hlt) by lra.
  assert (H : (14 * (1 - (value - min_val) / (max_val - min_val)) == 14)%Q).
  { rewrite Hv. unfold Qdiv. ring. }
  rewrite (Qfloor_comp _ _ H). reflexivity.
Qed.

Lemma point_row_of_max (min_val max_val value : Q) :
  (min_val < max_val)%Q -> (value == max_val)%Q ->
  point_row min_val max_val value = 0.
Proof.
  intros Hlt Hv.
  rewrite (point_row_floor _ _ _ Hlt) by lra.
  assert (H : (14 * (1 - (value - min_val) / (max_val - min_val)) == 0)%Q).
  { rewrite Hv. unfold Qdiv. rewrite Qmult_inv_r by lra. ring. }
  rewrite (Qfloor_comp _ _ H). reflexivity.
Qed.

(** *** The grid *)

Lemma index_in_range (n : nat) (y : Z) :
  0 <= y < Z.of_nat n -> Py.index n y = Some (Z.to_nat y).
Proof.
  intros [Hlo Hhi]. unfold Py.index.
  apply Z.leb_le in Hlo. apply Z.ltb_lt in Hhi. rewrite Hlo, Hhi. reflexivity.
Qed.

Lemma grid_row (w : nat) (g : grid) (y : Z) :
  grid_ok w g -> 0 <= y < 15 ->
  exists row, g !! Z.to_nat y = Some row /\ List.length row = w.
Proof.
  intros [Hlen Hrows] Hy.
  destruct (lookup_lt_is_Some_2 g (Z.to_nat y)) as [row Hrow]; [lia |].
  exists row. split; [exact Hrow |].
  exact (Forall_lookup_1 _ _ _ _ Hrows Hrow).
Qed.

Lemma get_cell_in_grid (w : nat) (g : grid) (y : Z) (x : nat) :
  grid_ok w g -> 0 <= y < 15 -> (x < w)%nat ->
  exists c, get_cell g y x = Ok c /\ lookup_cell g (Z.to_nat y) x = Some c.
Proof.
  intros Hg Hy Hx. destruct (grid_row w g y Hg Hy) as [row [Hrow Hlen]].
  destruct (lookup_lt_is_Some_2 row x) as [c Hc]; [lia |].
  exists c. unfold get_cell, lookup_cell.
  rewrite index_in_range by (destruct Hg as [-> _]; lia).
  rewrite Hrow, Hc. split; reflexivity.
Qed.

Lemma set_cell_in_grid (w : nat) (g : grid) (y : Z) (x : nat) (c : cell) :
  grid_ok w g -> 0 <= y < 15 -> (x < w)%nat ->
  exists g',
    set_cell g y x c = Ok g'
    /\ grid_ok w g'
    /\ lookup_cell g' (Z.to_nat y) x = Some c
    /\ (forall r' x', (r', x') <> (Z.to_nat y, x) ->
        lookup_cell g' r' x' = lookup_cell g r' x').
Proof.
  intros Hg Hy Hx. destruct (grid_row w g y Hg Hy) as [row [Hrow Hlen]].
  exists (<[Z.to_nat y := <[x := c]> row]> g).
  assert (Hy' : (Z.to_nat y < List.length g)%nat)
    by (destruct Hg as [-> _]; lia).
  split; [| split; [| split]].
  - unfold set_cell.
    rewrite index_in_range by (destruct Hg as [-> _]; lia).
    rewrite Hrow. destruct (Nat.ltb_spec x (List.length row)); [reflexivity | lia].
  - destruct Hg as [Hlen15 Hrows]. split.
    + rewrite length_insert. exact Hlen15.
    + apply Forall_insert; [exact Hrows |]. rewrite length_insert. exact Hlen.
  - unfold lookup_cell. rewrite list_lookup_insert_eq by exact Hy'.
    apply list_lookup_insert_eq. lia.
  - intros r' x' Hne. unfold lookup_cell.
    destruct (Nat.eq_dec r' (Z.to_nat y)) as [-> | Hr].
    + rewrite list_lookup_insert_eq by exact Hy'. rewrite Hrow.
      apply list_lookup_insert_ne. intros ->. apply Hne. reflexivity.
    + rewrite list_lookup_insert_ne by (intros Heq; apply Hr; symmetry; exact Heq).
      reflexivity.
Qed.

Lemma dots_kept_refl (g : grid) : dots_kept g g.
Proof. intros r x H. exact H. Qed.

Lemma dots_kept_trans (g1 g2 g3 : grid) :
  dots_kept g1 g2 -> dots_kept g2 g3 -> dots_kept g1 g3.
Proof. intros H12 H23 r x H. apply H23, H12, H. Qed.

(** The connector loop stays inside the grid and overwrites blank cells
    only. *)
Lemma draw_line_in_grid (w x : nat) (start_y end_y : Z) (n : nat) :
  (x < w)%nat ->
  forall (g : grid) (line_y : Z),
    grid_ok w g -> 0 <= line_y -> line_y + Z.of_nat n <= 15 ->
    exists g',
      draw_line g x start_y end_y line_y n = Ok g'
      /\ grid_ok w g' /\ dots_kept g g'.
Proof.
  intros Hx. induction n as [| n IH]; intros g line_y Hg Hlo Hhi; simpl.
  - exists g. split; [reflexivity |]. split; [exact Hg | apply dots_kept_refl].
  - destruct (get_cell_in_grid w g line_y x Hg ltac:(lia) Hx)
      as [c [Hget Hc]].
    rewrite Hget. simpl.
    destruct (cell_eqb c Blank) eqn:Hblank.
    + destruct (set_cell_in_grid w g line_y x
                  (if negb (start_y =? end_y) then Bar else Dot)
                  Hg ltac:(lia) Hx)
        as [g1 [Hset [Hg1 [_ Hother]]]].
      rewrite Hset. simpl.
      destruct (IH g1 (line_y + 1) Hg1 ltac:(lia) ltac:(lia))
        as [g' [Hdraw [Hg' Hkept]]].
      exists g'. split; [exact Hdraw |]. split; [exact Hg' |].
      apply dots_kept_trans with g1; [| exact Hkept].
      intros r x' Hdot. rewrite Hother; [exact Hdot |].
      intros [= -> ->]. rewrite Hc in Hdot. injection Hdot as ->.
      discriminate Hblank.
    + simpl. apply IH; [exact Hg | lia | lia].
Qed.

Lemma plot_point_in_grid (data : list Q) (min_val max_val : Q)
    (w : nat) (g : grid) (i : nat) (value : Q) :
  grid_ok w g -> (i < w)%nat ->
  0 <= point_row min_val max_val value <= 14 ->
  (forall prev, data !! (i - 1)%nat = Some prev ->
                0 <= point_row min_val max_val prev <= 14) ->
  ((0 < i)%nat -> is_Some (data !! (i - 1)%nat)) ->
  exists g',
    plot_point data min_val max_val g i value = Ok g'
    /\ grid_ok w g'
    /\ dots_kept g g'
    /\ lookup_cell g' (Z.to_nat (point_row min_val max_val value)) i
       = Some Dot.
Proof.
  intros Hg Hi Hy Hprev Hsome. unfold plot_point.
  destruct (set_cell_in_grid w g (point_row min_val max_val value) i Dot
              Hg ltac:(lia) Hi) as [g1 [Hset [Hg1 [Hdot Hother]]]].
  rewrite Hset. simpl.
  assert (Hkept1 : dots_kept g g1).
  { intros r x H.
    destruct (decide ((r, x)
                      = (Z.to_nat (point_row min_val max_val value), i)))
      as [[= -> ->] | Hne]; [exact Hdot | rewrite Hother; assumption]. }
  destruct (Nat.ltb_spec 0 i) as [Hpos | Hzero].
  - destruct (Hsome Hpos) as [prev Hp]. rewrite Hp.
    specialize (Hprev prev Hp).
    destruct (draw_line_in_grid w (i - 1)
                (Z.min (point_row min_val max_val prev)
                       (point_row min_val max_val value))
                (Z.max (point_row min_val max_val prev)
                       (point_row min_val max_val value))
                (Z.to_nat
                   (Z.max (point_row min_val max_val prev)
                          (point_row min_val max_val value) + 1
                    - Z.min (point_row min_val max_val prev)
                            (point_row min_val max_val value)))
                ltac:(lia) g1
                (Z.min (point_row min_val max_val prev)
                       (point_row min_val max_val value))
                Hg1 ltac:(lia) ltac:(lia))
      as [g' [Hdraw [Hg' Hkept]]].
    exists g'. split; [exact Hdraw |]. split; [exact Hg' |].
    split; [apply dots_kept_trans with g1; assumption | apply Hkept, Hdot].
  - exists g1. split; [reflexivity |]. split; [exact Hg1 |].
    split; [exact Hkept1 | exact Hdot].
Qed.

Lemma plot_from_in_grid (data : list Q) (min_val max_val : Q) :
  (forall j v, data !! j = Some v ->
               0 <= point_row min_val max_val v <= 14) ->
  forall (rest : list Q) (i : nat) (g : grid),
    grid_ok (List.length data) g ->
    (forall k v, rest !! k = Some v -> data !! (i + k)%nat = Some v) ->
    exists g',
      plot_from data min_val max_val g i rest = Ok g'
      /\ grid_ok (List.length data) g'
      /\ dots_kept g g'
      /\ (forall k v, rest !! k = Some v ->
          lookup_cell g' (Z.to_nat (point_row min_val max_val v)) (i + k)
            = Some Dot).
Proof.
  intros Hrows rest.
  induction rest as [| value rest IH]; intros i g Hg Hsuffix; simpl.
  - exists g. split; [reflexivity |]. split; [exact Hg |].
    split; [apply dots_kept_refl | intros k v H; discriminate H].
  - assert (Hvalue : data !! i = Some value).
    { specialize (Hsuffix 0%nat value eq_refl).
      rewrite Nat.add_0_r in Hsuffix. exact Hsuffix. }
    assert (Hi : (i < List.length data)%nat)
      by (eapply lookup_lt_Some; exact Hvalue).
    destruct (plot_point_in_grid data min_val max_val (List.length data)
                g i value Hg Hi (Hrows i value Hvalue))
      as [g1 [Hplot [Hg1 [Hkept1 Hdot]]]].
    + intros prev Hp. exact (Hrows _ _ Hp).
    + intros Hpos. apply lookup_lt_is_Some_2. lia.
    + rewrite Hplot. simpl.
      destruct (IH (S i) g1 Hg1) as [g' [Hfrom [Hg' [Hkept Hdots]]]].
      { intros k v Hk. specialize (Hsuffix (S k) v Hk).
        rewrite Nat.add_succ_r in Hsuffix. exact Hsuffix. }
      exists g'. split; [exact Hfrom |]. split; [exact Hg' |].
      split; [apply dots_kept_trans with g1; assumption |].
      intros [| k] v Hk.
      * injection Hk as <-. rewrite Nat.add_0_r. apply Hkept, Hdot.
      * rewrite Nat.add_succ_r. apply (Hdots k v Hk).
Qed.

Lemma blank_grid_ok (w : nat) :
  grid_ok w (List.map (fun _ : nat => List.map (fun _ : nat => Blank) (seq 0 w))
                      (seq 0 (Z.to_nat height))).
Proof.
  split.
  - rewrite List.length_map, List.length_seq. reflexivity.
  - apply List.Forall_forall. intros row Hrow.
    apply List.in_map_iff in Hrow. destruct Hrow as [_ [<- _]].
    rewrite List.length_map, List.length_seq. reflexivity.
Qed.

Lemma cell_at_lookup (w : nat) (g : grid) (y : Z) (x : nat) :
  grid_ok w g -> 0 <= y <= 14 ->
  cell_at g y x = lookup_cell g (Z.to_nat y) x.
Proof.
  intros [Hlen _] Hy. unfold cell_at, get_cell, lookup_cell.
  rewrite index_in_range by lia.
  destruct (g !! Z.to_nat y) as [row |]; [| reflexivity].
  destruct (row !! x); reflexivity.
Qed.

Lemma sample_between (data : list Q) (min_val max_val : Q) (i : nat) (v : Q) :
  Py.min data = Some min_val -> Py.max data = Some max_val ->
  data !! i = Some v -> (min_val <= v <= max_val)%Q.
Proof.
  intros Hmin Hmax Hv.
  destruct (min_is_minimum _ _ Hmin) as [_ Hlo].
  destruct (max_is_maximum _ _ Hmax) as [_ Hhi].
  split.
  - exact (Forall_lookup_1 _ _ _ _ Hlo Hv).
  - exact (Forall_lookup_1 _ _ _ _ Hhi Hv).
Qed.

(** C1, as the code has it: for a non-empty list of samples the renderer
    draws a grid of 15 rows with one column per sample, and the point marker
    of the sample [v] in column [i] is on row
    [int(14 * (1 - (v - min) / (max - min)))] when [max > min], the value
    being truncated (rounded down, as it is not negative) and not rounded to
    the nearest row; a least sample is on row 14, a greatest sample on row 0;
    when all samples are equal ([max == min]) every marker is on row 7. *)
Theorem draw_ascii_graph_places_samples (data : list Q) :
  data <> [] ->
  exists (min_val max_val : Q) (g : grid),
    Py.min data = Some min_val
    /\ Py.max data = Some max_val
    /\ _draw_ascii_graph data = Ok (Graph g)
    /\ grid_ok (List.length data) g
    /\ forall (i : nat) (v : Q),
         data !! i = Some v ->
         let y := point_row min_val max_val v in
         cell_at g y i = Some Dot
         /\ 0 <= y <= 14
         /\ ((min_val < max_val)%Q ->
             y = Py.int (14 * (1 - (v - min_val) / (max_val - min_val)))%Q
             /\ y = Qfloor (14 * (1 - (v - min_val) / (max_val - min_val)))%Q)
         /\ ((min_val < max_val)%Q -> (v == min_val)%Q -> y = 14)
         /\ ((min_val < max_val)%Q -> (v == max_val)%Q -> y = 0)
         /\ ((max_val == min_val)%Q -> y = 7).
Proof.
  intros Hne.
  destruct data as [| x data'] eqn:Hdata; [congruence |].
  rewrite <- Hdata in *. clear Hne.
  assert (Hmin : exists min_val, Py.min data = Some min_val)
    by (rewrite Hdata; simpl; eauto).
  assert (Hmax : exists max_val, Py.max data = Some max_val)
    by (rewrite Hdata; simpl; eauto).
  destruct Hmin as [min_val Hmin]. destruct Hmax as [max_val Hmax].
  assert (Hrows : forall j v, data !! j = Some v ->
                              0 <= point_row min_val max_val v <= 14).
  { intros j v Hv. apply point_row_bounds.
    exact (sample_between data min_val max_val j v Hmin Hmax Hv). }
  destruct (plot_from_in_grid data min_val max_val Hrows data 0%nat _
              (blank_grid_ok (List.length data)))
    as [g [Hplot [Hg [_ Hdots]]]]; [intros k v Hk; exact Hk |].
  exists min_val, max_val, g.
  split; [exact Hmin |]. split; [exact Hmax |].
  split.
  { unfold _draw_ascii_graph. rewrite Hmin, Hmax. rewrite Hplot. reflexivity. }
  split; [exact Hg |].
  intros i v Hv y.
  pose proof (sample_between data min_val max_val i v Hmin Hmax Hv) as Hbetween.
  split.
  { rewrite (cell_at_lookup _ _ _ _ Hg (Hrows i v Hv)). exact (Hdots i v Hv). }
  split; [exact (Hrows i v Hv) |].
  split.
  { intros Hlt. split.
    - apply point_row_spread, Hlt.
    - apply point_row_floor; assumption. }
  split; [intros Hlt Heq; apply point_row_of_min; assumption |].
  split; [intros Hlt Heq; apply point_row_of_max; assumption |].
  intros Heq. apply point_row_flat. rewrite Heq. apply Qle_refl.
Qed.

(** The samples 10, 20, 10: three columns, the 10s on row 14, the 20 on
    row 0. *)
Lemma draw_ascii_graph_places_samples_witness :
  exists (min_val max_val : Q) (g : grid),
    _draw_ascii_graph [10; 20; 10]%Q = Ok (Graph g)
    /\ grid_ok 3 g
    /\ cell_at g (point_row min_val max_val 10) 0 = Some Dot
    /\ cell_at g (point_row min_val max_val 20) 1 = Some Dot
    /\ cell_at g (point_row min_val max_val 10) 2 = Some Dot.
Proof.
  destruct (draw_ascii_graph_places_samples [10; 20; 10]%Q
              ltac:(discriminate))
    as [min_val [max_val [g [_ [_ [Hdraw [Hg Hcells]]]]]]].
  exists min_val, max_val, g.
  split; [exact Hdraw |]. split; [exact Hg |].
  split; [exact (proj1 (Hcells 0%nat 10%Q eq_refl)) |].
  split; [exact (proj1 (Hcells 1%nat 20%Q eq_refl)) |].
  exact (proj1 (Hcells 2%nat 10%Q eq_refl)).
Defined.

(** C1, as the specification states it, fails: for the samples 0, 2, 3 the
    formula with [round] puts the sample 2 on row 5, where the drawn grid has
    no point marker (the marker is on row 4). *)
Lemma draw_ascii_graph_row_is_not_rounded :
  ~ (forall (data : list Q) (min_val max_val : Q) (g : grid)
            (i : nat) (v : Q),
       Py.min data = Some min_val ->
       Py.max data = Some max_val ->
       (min_val < max_val)%Q ->
       _draw_ascii_graph data = Ok (Graph g) ->
       data !! i = Some v ->
       cell_at g (rounded_row min_val max_val v) i = Some Dot).
Proof.
  intros H.
  destruct (_draw_ascii_graph [0; 2; 3]%Q) as [[| g] | e] eqn:Hdraw;
    try discriminate Hdraw.
  specialize (H [0; 2; 3]%Q 0%Q 3%Q g 1%nat 2%Q
                eq_refl eq_refl eq_refl Hdraw eq_refl).
  vm_compute in Hdraw. injection Hdraw as <-.
  vm_compute in H. discriminate H.
Qed.

(** ** More on the monitoring bot *)

Import Render.

(** *** The generated series *)

Lemma sample_value_bounds (data_type : string) (i : Z) :
  0 <= i ->
  if String.eqb (Py.lower data_type) "latency"
  then 50 <= sample_value data_type i <= 200
  else 85 <= sample_value data_type i <= 100.
Proof.
  intros Hi. unfold sample_value.
  pose proof (Z.mod_pos_bound i 3 ltac:(lia)).
  pose proof (Z.mod_pos_bound i 2 ltac:(lia)).
  destruct (String.eqb (Py.lower data_type) "latency"); lia.
Qed.

(** *** What the connector loop writes *)

Lemma draw_line_cells (w x : nat) (start_y end_y : Z) (n : nat) :
  (x < w)%nat ->
  forall (g : grid) (line_y : Z),
    grid_ok w g -> 0 <= line_y -> line_y + Z.of_nat n <= 15 ->
    exists g',
      draw_line g x start_y end_y line_y n = Ok g'
      /\ grid_ok w g'
      /\ forall (r : Z) (x' : nat),
           0 <= r <= 14 ->
           lookup_cell g' (Z.to_nat r) x'
           = if (x' =? x)%nat && (line_y <=? r) && (r <? line_y + Z.of_nat n)
                && is_blank (lookup_cell g (Z.to_nat r) x')
             then Some (if negb (start_y =? end_y) then Bar else Dot)
             else lookup_cell g (Z.to_nat r) x'.
Proof.
  intros Hx. induction n as [| n IH]; intros g line_y Hg Hlo Hhi.
  - exists g. split; [reflexivity |]. split; [exact Hg |].
    intros r x' Hr.
    destruct (x' =? x)%nat, (line_y <=? r) eqn:E1;
      destruct (Z.ltb_spec r (line_y + Z.of_nat 0)); simpl;
      try reflexivity.
    apply Z.leb_le in E1. lia.
  - simpl draw_line.
    destruct (get_cell_in_grid w g line_y x Hg ltac:(lia) Hx)
      as [c [Hget Hc]].
    rewrite Hget. simpl bind.
    destruct (cell_eqb c Blank) eqn:Hblank.
    + assert (c = Blank) by (destruct c; [reflexivity | discriminate ..]).
      subst c.
      destruct (set_cell_in_grid w g line_y x
                  (if negb (start_y =? end_y) then Bar else Dot)
                  Hg ltac:(lia) Hx)
        as [g1 [Hset [Hg1 [Hnew Hother]]]].
      rewrite Hset. simpl bind.
      destruct (IH g1 (line_y + 1) Hg1 ltac:(lia) ltac:(lia))
        as [g' [Hdraw [Hg' Hcells]]].
      exists g'. split; [exact Hdraw |]. split; [exact Hg' |].
      intros r x' Hr. rewrite (Hcells r x' Hr).
      destruct (Nat.eqb_spec x' x) as [-> | Hxx]; simpl.
      * destruct (Z.eq_dec r line_y) as [-> | Hrl].
        -- rewrite Hnew, Hc. simpl.
           destruct (Z.leb_spec (line_y + 1) line_y); [lia |].
           destruct (Z.leb_spec line_y line_y); [| lia].
           destruct (Z.ltb_spec line_y (line_y + Z.of_nat (S n))); [| lia].
           reflexivity.
        -- rewrite Hother
             by (intros Heq; apply (f_equal fst) in Heq; simpl in Heq; lia).
           destruct (Z.leb_spec (line_y + 1) r), (Z.leb_spec line_y r),
             (Z.ltb_spec r (line_y + 1 + Z.of_nat n)),
             (Z.ltb_spec r (line_y + Z.of_nat (S n)));
             try lia; reflexivity.
      * rewrite Hother
          by (intros Heq; apply (f_equal snd) in Heq; simpl in Heq; lia).
        reflexivity.
    + destruct (IH g (line_y + 1) Hg ltac:(lia) ltac:(lia))
        as [g' [Hdraw [Hg' Hcells]]].
      exists g'. split; [exact Hdraw |]. split; [exact Hg' |].
      intros r x' Hr. rewrite (Hcells r x' Hr).
      destruct (Nat.eqb_spec x' x) as [-> | Hxx]; simpl; [| reflexivity].
      destruct (Z.eq_dec r line_y) as [-> | Hrl].
      * rewrite Hc.
        destruct (Z.leb_spec (line_y + 1) line_y); [lia |]. simpl.
        destruct c; [discriminate Hblank | |];
          rewrite !andb_false_r; reflexivity.
      * destruct (Z.leb_spec (line_y + 1) r), (Z.leb_spec line_y r),
          (Z.ltb_spec r (line_y + 1 + Z.of_nat n)),
          (Z.ltb_spec r (line_y + Z.of_nat (S n)));
          try lia; reflexivity.
Qed.

(** *** The grid, cell by cell *)

Section DrawnGrid.

Variable data : list Q.
Variables min_val max_val : Q.

Hypothesis rows_in_grid :
  forall j v, data !! j = Some v -> 0 <= point_row min_val max_val v <= 14.

(** [g] holds what plotting the columns below [k] leaves. *)
Let plotted (k : nat) (g : grid) : Prop :=
  forall (r : Z) (x : nat),
    0 <= r <= 14 -> (x < List.length data)%nat ->
    lookup_cell g (Z.to_nat r) x
      = Some (cell_after data min_val max_val k r x).

Lemma row_of_Some (x : nat) (v : Q) :
  data !! x = Some v ->
  row_of data min_val max_val x = Some (point_row min_val max_val v).
Proof. intros H. unfold row_of. rewrite H. reflexivity. Qed.

Lemma plot_point_cells (g : grid) (k : nat) (value : Q) :
  grid_ok (List.length data) g ->
  data !! k = Some value ->
  plotted k g ->
  exists g',
    plot_point data min_val max_val g k value = Ok g'
    /\ grid_ok (List.length data) g'
    /\ plotted (S k) g'.
Proof.
  intros Hg Hk Hplotted.
  assert (Hkw : (k < List.length data)%nat) by (eapply lookup_lt_Some; eauto).
  pose proof (rows_in_grid k value Hk) as Hy.
  unfold plot_point.
  destruct (set_cell_in_grid (List.length data) g
              (point_row min_val max_val value) k Dot Hg ltac:(lia) Hkw)
    as [g1 [Hset [Hg1 [Hdot Hother]]]].
  rewrite Hset. simpl bind.
  set (y := point_row min_val max_val value) in *.
  assert (Hg1cells : forall r x, 0 <= r <= 14 ->
            (x < List.length data)%nat ->
            lookup_cell g1 (Z.to_nat r) x
            = if (x =? k)%nat && (r =? y) then Some Dot
              else Some (cell_after data min_val max_val k r x)).
  { intros r x Hr Hxw.
    destruct (Nat.eqb_spec x k) as [-> | Hxk]; simpl.
    - destruct (Z.eqb_spec r y) as [-> | Hry]; [exact Hdot |].
      rewrite Hother
        by (intros Heq; apply (f_equal fst) in Heq; simpl in Heq; lia).
      apply Hplotted; assumption.
    - rewrite Hother
        by (intros Heq; apply (f_equal snd) in Heq; simpl in Heq; lia).
      apply Hplotted; assumption. }
  destruct (Nat.ltb_spec 0 k) as [Hpos | Hzero].
  - destruct (lookup_lt_is_Some_2 data (k - 1)) as [prev Hprev]; [lia |].
    rewrite Hprev.
    pose proof (rows_in_grid _ _ Hprev) as Ha.
    set (a := point_row min_val max_val prev) in *.
    destruct (draw_line_cells (List.length data) (k - 1)
                (Z.min a y) (Z.max a y)
                (Z.to_nat (Z.max a y + 1 - Z.min a y))
                ltac:(lia) g1 (Z.min a y) Hg1 ltac:(lia) ltac:(lia))
      as [g' [Hdraw [Hg' Hcells]]].
    exists g'. split; [exact Hdraw |]. split; [exact Hg' |].
    intros r x Hr Hxw. rewrite (Hcells r x Hr).
    rewrite (Hg1cells r x Hr Hxw).
    unfold cell_after.
    destruct (Nat.eqb_spec x (k - 1)) as [-> | Hx1]; simpl.
    + (* the column of the previous sample *)
      replace (S (k - 1)) with k by lia.
      rewrite (row_of_Some _ _ Hprev), (row_of_Some _ _ Hk).
      fold a. fold y.
      destruct (Nat.eqb_spec (k - 1) k); [lia |]. simpl.
      destruct (Nat.ltb_spec (k - 1) k); [| lia].
      destruct (Nat.ltb_spec (k - 1) (S k)); [| lia].
      destruct (Nat.ltb_spec k k); [lia |].
      destruct (Nat.ltb_spec k (S k)); [| lia].
      destruct (Z.eqb_spec r a) as [-> | Hra]; simpl.
      * rewrite !andb_false_r. reflexivity.
      * destruct (Z.leb_spec (Z.min a y) r), (Z.leb_spec r (Z.max a y)),
          (Z.ltb_spec r (Z.min a y
                         + Z.of_nat (Z.to_nat (Z.max a y + 1 - Z.min a y))));
          simpl; try lia; try reflexivity.
        destruct (Z.eqb_spec (Z.min a y) (Z.max a y)); [lia | reflexivity].
    + (* every other column *)
      destruct (Nat.eqb_spec x k) as [-> | Hxk]; simpl.
      * rewrite (row_of_Some _ _ Hk). fold y.
        destruct (Nat.ltb_spec k k); [lia |].
        destruct (Nat.ltb_spec k (S k)); [| lia].
        destruct (Nat.ltb_spec (S k) (S k)); [lia |].
        destruct (Z.eqb_spec r y); simpl; [reflexivity |].
        destruct (row_of data min_val max_val (S k)); reflexivity.
      * destruct (row_of data min_val max_val x) as [a' |]; [| reflexivity].
        destruct (Nat.ltb_spec x k), (Nat.ltb_spec x (S k)); try lia;
          [| reflexivity].
        destruct (r =? a'); [reflexivity |].
        destruct (row_of data min_val max_val (S x)) as [b' |];
          [| reflexivity].
        destruct (Nat.ltb_spec (S x) k), (Nat.ltb_spec (S x) (S k));
          try lia; reflexivity.
  - assert (k = 0%nat) by lia. subst k.
    exists g1. split; [reflexivity |]. split; [exact Hg1 |].
    intros r x Hr Hxw. rewrite (Hg1cells r x Hr Hxw). unfold cell_after.
    destruct (Nat.eqb_spec x 0) as [-> | Hx0]; simpl.
    + rewrite (row_of_Some _ _ Hk). fold y.
      destruct (Z.eqb_spec r y); simpl; [reflexivity |].
      destruct (row_of data min_val max_val 1); reflexivity.
    + destruct (row_of data min_val max_val x) as [a' |]; [| reflexivity].
      destruct (Nat.ltb_spec x 1); [lia | reflexivity].
Qed.

Lemma plot_from_cells (rest : list Q) :
  forall (k : nat) (g : grid),
    grid_ok (List.length data) g ->
    (forall j v, rest !! j = Some v -> data !! (k + j)%nat = Some v) ->
    plotted k g ->
    exists g',
      plot_from data min_val max_val g k rest = Ok g'
      /\ grid_ok (List.length data) g'
      /\ plotted (k + List.length rest) g'.
Proof.
  induction rest as [| value rest IH]; intros k g Hg Hsuffix Hplotted; simpl.
  - exists g. split; [reflexivity |]. split; [exact Hg |].
    rewrite Nat.add_0_r. exact Hplotted.
  - assert (Hk : data !! k = Some value).
    { specialize (Hsuffix 0%nat value eq_refl).
      rewrite Nat.add_0_r in Hsuffix. exact Hsuffix. }
    destruct (plot_point_cells g k value Hg Hk Hplotted)
      as [g1 [Hplot [Hg1 Hplotted1]]].
    rewrite Hplot. simpl bind.
    destruct (IH (S k) g1 Hg1) as [g' [Hfrom [Hg' Hplotted']]].
    + intros j v Hj. specialize (Hsuffix (S j) v Hj).
      rewrite Nat.add_succ_r in Hsuffix. exact Hsuffix.
    + exact Hplotted1.
    + exists g'. split; [exact Hfrom |]. split; [exact Hg' |].
      rewrite Nat.add_succ_r. exact Hplotted'.
Qed.

End DrawnGrid.

Lemma blank_grid_cells (w : nat) (r x : nat) :
  (r < 15)%nat -> (x < w)%nat ->
  lookup_cell
    (List.map (fun _ : nat => List.map (fun _ : nat => Blank) (seq 0 w))
              (seq 0 (Z.to_nat height))) r x
  = Some Blank.
Proof.
  intros Hr Hx.
  set (g := List.map (fun _ : nat => List.map (fun _ : nat => Blank) (seq 0 w))
                     (seq 0 (Z.to_nat height))).
  destruct (blank_grid_ok w) as [Hlen Hrows]. fold g in Hlen, Hrows.
  assert (Hall : Forall (Forall (fun c => c = Blank)) g).
  { apply List.Forall_forall. intros row Hrow.
    apply List.in_map_iff in Hrow. destruct Hrow as [_ [<- _]].
    apply List.Forall_forall. intros c Hc.
    apply List.in_map_iff in Hc. destruct Hc as [_ [<- _]]. reflexivity. }
  unfold lookup_cell.
  destruct (lookup_lt_is_Some_2 g r) as [row Hrow]; [lia |].
  rewrite Hrow.
  pose proof (Forall_lookup_1 _ _ _ _ Hrows Hrow) as Hw. simpl in Hw.
  destruct (lookup_lt_is_Some_2 row x) as [c Hc]; [lia |].
  rewrite Hc. f_equal.
  exact (Forall_lookup_1 _ _ _ _ (Forall_lookup_1 _ _ _ _ Hall Hrow) Hc).
Qed.

(** The whole grid of a drawing. *)
Lemma draw_cells (data : list Q) (min_val max_val : Q) :
  Py.min data = Some min_val -> Py.max data = Some max_val ->
  exists g,
    _draw_ascii_graph data = Ok (Graph g)
    /\ grid_ok (List.length data) g
    /\ forall (r : Z) (x : nat),
         0 <= r <= 14 -> (x < List.length data)%nat ->
         cell_at g r x = Some (expected_cell data min_val max_val r x).
Proof.
  intros Hmin Hmax.
  assert (Hrows : forall j v, data !! j = Some v ->
                              0 <= point_row min_val max_val v <= 14).
  { intros j v Hv. apply point_row_bounds.
    exact (sample_between data min_val max_val j v Hmin Hmax Hv). }
  destruct (plot_from_cells data min_val max_val Hrows data 0%nat _
              (blank_grid_ok (List.length data)))
    as [g [Hplot [Hg Hcells]]].
  - intros j v Hj. exact Hj.
  - intros r x Hr Hx. rewrite blank_grid_cells by lia.
    unfold cell_after. destruct (row_of data min_val max_val x); reflexivity.
  - exists g. split; [| split; [exact Hg |]].
    + unfold _draw_ascii_graph. rewrite Hmax, Hmin, Hplot. reflexivity.
    + intros r x Hr Hx.
      rewrite (cell_at_lookup _ _ _ _ Hg Hr). apply Hcells; assumption.
Qed.

Lemma drawing_has_extremes (data : list Q) (g : grid) :
  _draw_ascii_graph data = Ok (Graph g) ->
  exists min_val max_val,
    Py.min data = Some min_val /\ Py.max data = Some max_val.
Proof.
  destruct data as [| x data]; [discriminate |]. intros _. simpl. eauto.
Qed.

(** The drawn grid is known cell by cell.  Column [x] holds the point marker
    on the row of sample [x]; when there is a sample [x + 1], it holds
    connectors on the other rows from the row of sample [x] to the row of
    sample [x + 1]; every other cell is blank.  So the last column holds its
    marker only, and a cell once written is never changed. *)
Theorem drawn_grid_cell_by_cell (data : list Q) (g : grid) :
  _draw_ascii_graph data = Ok (Graph g) ->
  exists min_val max_val,
    Py.min data = Some min_val
    /\ Py.max data = Some max_val
    /\ forall (r : Z) (x : nat),
         0 <= r <= 14 -> (x < List.length data)%nat ->
         cell_at g r x = Some (expected_cell data min_val max_val r x).
Proof.
  intros Hdraw.
  destruct (drawing_has_extremes data g Hdraw)
    as [min_val [max_val [Hmin Hmax]]].
  exists min_val, max_val. split; [exact Hmin |]. split; [exact Hmax |].
  destruct (draw_cells data min_val max_val Hmin Hmax)
    as [g' [Hdraw' [_ Hcells]]].
  rewrite Hdraw in Hdraw'. injection Hdraw' as <-. exact Hcells.
Qed.

Lemma drawn_grid_cell_by_cell_witness :
  exists min_val max_val,
    Py.min zigzag = Some min_val
    /\ Py.max zigzag = Some max_val
    /\ forall (r : Z) (x : nat),
         0 <= r <= 14 -> (x < List.length zigzag)%nat ->
         cell_at zigzag_grid r x
           = Some (expected_cell zigzag min_val max_val r x).
Proof.
  exact (drawn_grid_cell_by_cell zigzag zigzag_grid eq_refl).
Defined.

(** Consecutive samples are joined without a gap: in the column of a sample
    that has a successor, no cell from the row of the sample to the row of
    its successor is blank; the cell on the sample's own row is the marker
    and the others are connectors. *)
Theorem consecutive_points_are_connected
    (data : list Q) (g : grid) (x : nat) (v v' : Q) :
  _draw_ascii_graph data = Ok (Graph g) ->
  data !! x = Some v -> data !! S x = Some v' ->
  exists min_val max_val,
    Py.min data = Some min_val
    /\ Py.max data = Some max_val
    /\ forall r : Z,
         Z.min (point_row min_val max_val v) (point_row min_val max_val v')
           <= r
           <= Z.max (point_row min_val max_val v)
                    (point_row min_val max_val v') ->
         cell_at g r x
           = Some (if r =? point_row min_val max_val v then Dot else Bar).
Proof.
  intros Hdraw Hv Hv'.
  destruct (drawing_has_extremes data g Hdraw)
    as [min_val [max_val [Hmin Hmax]]].
  exists min_val, max_val. split; [exact Hmin |]. split; [exact Hmax |].
  destruct (draw_cells data min_val max_val Hmin Hmax)
    as [g' [Hdraw' [_ Hcells]]].
  rewrite Hdraw in Hdraw'. injection Hdraw' as <-.
  pose proof (point_row_bounds min_val max_val v
                (sample_between data min_val max_val x v Hmin Hmax Hv)) as Ha.
  pose proof (point_row_bounds min_val max_val v'
                (sample_between data min_val max_val (S x) v' Hmin Hmax Hv'))
    as Hb.
  assert (Hx : (S x < List.length data)%nat)
    by (eapply lookup_lt_Some; exact Hv').
  intros r Hr. rewrite Hcells by lia.
  unfold expected_cell, cell_after.
  rewrite (row_of_Some data min_val max_val x v Hv).
  rewrite (row_of_Some data min_val max_val (S x) v' Hv').
  destruct (Nat.ltb_spec x (List.length data)); [| lia].
  destruct (Nat.ltb_spec (S x) (List.length data)); [| lia].
  destruct (r =? point_row min_val max_val v); [reflexivity |].
  destruct (Z.leb_spec (Z.min (point_row min_val max_val v)
                              (point_row min_val max_val v')) r); [| lia].
  destruct (Z.leb_spec r (Z.max (point_row min_val max_val v)
                                (point_row min_val max_val v'))); [| lia].
  reflexivity.
Qed.

Lemma consecutive_points_are_connected_witness :
  exists min_val max_val,
    Py.min zigzag = Some min_val
    /\ Py.max zigzag = Some max_val
    /\ forall r : Z,
         Z.min (point_row min_val max_val 10) (point_row min_val max_val 20)
           <= r
           <= Z.max (point_row min_val max_val 10)
                    (point_row min_val max_val 20) ->
         cell_at zigzag_grid r 0
           = Some (if r =? point_row min_val max_val 10 then Dot else Bar).
Proof.
  exact (consecutive_points_are_connected zigzag zigzag_grid 0 10%Q 20%Q
           eq_refl eq_refl eq_refl).
Defined.

(** For samples that are all equal the grid is one run of markers on row 7:
    no connector is drawn and every other cell is blank. *)
Theorem flat_series_is_one_row (data : list Q) (g : grid)
    (min_val max_val : Q) :
  _draw_ascii_graph data = Ok (Graph g) ->
  Py.min data = Some min_val -> Py.max data = Some max_val ->
  (max_val == min_val)%Q ->
  forall (r : Z) (x : nat),
    0 <= r <= 14 -> (x < List.length data)%nat ->
    cell_at g r x = Some (if r =? 7 then Dot else Blank).
Proof.
  intros Hdraw Hmin Hmax Heq r x Hr Hx.
  destruct (draw_cells data min_val max_val Hmin Hmax)
    as [g' [Hdraw' [_ Hcells]]].
  rewrite Hdraw in Hdraw'. injection Hdraw' as <-.
  rewrite Hcells by assumption.
  assert (Hflat : forall v, point_row min_val max_val v = 7).
  { intros v. apply point_row_flat. rewrite Heq. apply Qle_refl. }
  unfold expected_cell, cell_after, row_of.
  destruct (lookup_lt_is_Some_2 data x Hx) as [v Hv]. rewrite Hv, Hflat.
  destruct (Nat.ltb_spec x (List.length data)); [| lia].
  destruct (Z.eqb_spec r 7); [reflexivity |].
  destruct (data !! S x) as [v' |]; [| reflexivity].
  rewrite Hflat.
  destruct (Z.leb_spec (Z.min 7 7) r), (Z.leb_spec r (Z.max 7 7));
    try lia; rewrite ?andb_false_r; reflexivity.
Qed.

Lemma flat_series_is_one_row_witness :
  cell_at flat_grid 7 0 = Some Dot /\ cell_at flat_grid 3 1 = Some Blank.
Proof.
  split.
  - exact (flat_series_is_one_row flat flat_grid 5%Q 5%Q
             eq_refl eq_refl eq_refl ltac:(reflexivity) 7 0%nat
             ltac:(lia) ltac:(simpl; lia)).
  - exact (flat_series_is_one_row flat flat_grid 5%Q 5%Q
             eq_refl eq_refl eq_refl ltac:(reflexivity) 3 1%nat
             ltac:(lia) ltac:(simpl; lia)).
Defined.

(** *** [render_graph] *)

Lemma data_points_length (data_type : string) (days : Z) :
  List.length (data_points data_type days) = Z.to_nat days.
Proof.
  unfold data_points. rewrite List.length_map, List.length_seq. reflexivity.
Qed.

(** The generated series has one point per day (none when [days] is not
    positive); a latency point lies between 50 and 200, an availability point
    between 85 and 100. *)
Theorem generated_series_in_range (data_type : string) (days : Z) :
  List.length (data_points data_type days) = Z.to_nat days
  /\ Forall (fun v : Q =>
               if String.eqb (Py.lower data_type) "latency"
               then (50 <= v <= 200)%Q
               else (85 <= v <= 100)%Q)
            (data_points data_type days).
Proof.
  split; [apply data_points_length |]. unfold data_points.
  - apply List.Forall_forall. intros v Hv.
    apply List.in_map_iff in Hv. destruct Hv as [i [<- _]].
    pose proof (sample_value_bounds data_type (Z.of_nat i) ltac:(lia)) as H.
    destruct (String.eqb (Py.lower data_type) "latency");
      unfold Qle; simpl; lia.
Qed.


(** *** The sampling loop of [check_latency] *)

Lemma latency_summary_returns (endpoint : string) (duration_minutes : Z)
    (results : list RequestResult) :
  exists out,
    latency_summary endpoint duration_minutes results = Ok out
    /\ (out = None <-> results = []).
Proof.
  destruct results as [| r results].
  - exists None. split; [reflexivity | split; reflexivity].
  - destruct (median_is_median (List.map response_time (r :: results))
                ltac:(discriminate)) as [med [Hmed _]].
    unfold latency_summary. rewrite Hmed. simpl.
    eexists. split; [reflexivity |]. split; discriminate.
Qed.

Lemma latency_loop_raises_from_transport (base_url endpoint : string)
    (end_time : Q) (turns : list latency_turn) :
  forall results e,
    latency_loop base_url endpoint end_time turns results = Some (Raise e) ->
    e <> KeyboardInterrupt
    /\ e <> RequestException
    /\ exists t req, In t turns /\ transport (turn_probe t) req = Raised e.
Proof.
  induction turns as [| t turns IH]; intros results e; simpl;
    [discriminate |].
  destruct (Py.gt end_time (guard_clock t)); [| discriminate].
  unfold test_endpoint.
  destruct (transport (turn_probe t)
              (build_request base_url endpoint "POST" None)) as [code | x]
    eqn:Ht.
  - destruct (sleep_interrupted t); [discriminate |].
    intros H. apply IH in H. destruct H as [H1 [H2 [t' [req [Hin Hreq]]]]].
    split; [exact H1 |]. split; [exact H2 |]. exists t', req. auto.
  - destruct x.
    + destruct (sleep_interrupted t); [discriminate |].
      intros H. apply IH in H. destruct H as [H1 [H2 [t' [req [Hin Hreq]]]]].
      split; [exact H1 |]. split; [exact H2 |]. exists t', req. auto.
    + discriminate.
    + intros [= <-]. split; [discriminate |]. split; [discriminate |].
      exists t, (build_request base_url endpoint "POST" None). auto.
    + intros [= <-]. split; [discriminate |]. split; [discriminate |].
      exists t, (build_request base_url endpoint "POST" None). auto.
Qed.

(** An interrupt never leaves [check_latency], and neither does a transport
    failure: an exception that leaves it was raised by the transport of one
    of the probes and is neither a [KeyboardInterrupt] nor a
    [requests.RequestException]. *)
Theorem check_latency_absorbs_interrupts
    (base_url endpoint : string) (duration_minutes : Z) (start_time : Q)
    (turns : list latency_turn) (e : exn) :
  check_latency base_url endpoint duration_minutes start_time turns
    = Some (Raise e) ->
  e <> KeyboardInterrupt
  /\ e <> RequestException
  /\ exists t req, In t turns /\ transport (turn_probe t) req = Raised e.
Proof.
  unfold check_latency.
  destruct (latency_loop base_url endpoint _ turns [])
    as [[collected | x] |] eqn:Hloop; [| | discriminate].
  - destruct (latency_summary_returns endpoint duration_minutes collected)
      as [out [Hout _]].
    rewrite Hout. discriminate.
  - intros [= <-]. eapply latency_loop_raises_from_transport. exact Hloop.
Qed.

Lemma check_latency_absorbs_interrupts_witness :
  OtherError "MemoryError" <> KeyboardInterrupt
  /\ OtherError "MemoryError" <> RequestException
  /\ exists t req,
       In t [Worlds.turn_at 0 Worlds.out_of_memory]
       /\ transport (turn_probe t) req = Raised (OtherError "MemoryError").
Proof.
  exact (check_latency_absorbs_interrupts Examples.base_url Examples.search 5
           0%Q [Worlds.turn_at 0 Worlds.out_of_memory]
           (OtherError "MemoryError") eq_refl).
Defined.

Lemma latency_loop_collects (base_url endpoint : string) (end_time : Q)
    (turns : list latency_turn) :
  forall results out,
    latency_loop base_url endpoint end_time turns results = Some (Ok out) ->
    exists (k : nat) (rs : list RequestResult),
      (k <= List.length turns)%nat
      /\ out = (results ++ rs)%list
      /\ Forall2 (fun t r =>
                    Py.gt end_time (guard_clock t) = true
                    /\ test_endpoint base_url endpoint "POST" None
                         (turn_probe t) = Ok r)
                 (firstn k turns) rs.
Proof.
  induction turns as [| t turns IH]; intros results out; simpl;
    [discriminate |].
  destruct (Py.gt end_time (guard_clock t)) eqn:Hguard.
  - destruct (test_endpoint base_url endpoint "POST" None (turn_probe t))
      as [r | e] eqn:Hr.
    + destruct (sleep_interrupted t).
      * intros [= <-]. exists 1%nat, [r].
        split; [lia |]. split; [reflexivity |].
        simpl. constructor; [auto | constructor].
      * intros H. apply IH in H. destruct H as [k [rs [Hk [-> Hall]]]].
        exists (S k), (r :: rs). split; [lia |].
        split; [rewrite <- app_assoc; reflexivity |].
        simpl. constructor; [auto | exact Hall].
    + destruct e; try discriminate.
      intros [= <-]. exists 0%nat, []. split; [lia |].
      split; [rewrite app_nil_r; reflexivity | constructor].
  - intros [= <-]. exists 0%nat, []. split; [lia |].
    split; [rewrite app_nil_r; reflexivity | constructor].
Qed.

(** The report of [check_latency] is over the probes it made and nothing
    else: the collected results are, in order, the results of the probes of
    the first [k] turns of the loop, each started before the deadline; an
    interrupt or the deadline ends the collection, and what was collected
    until then is reported. *)
Theorem check_latency_reports_what_it_probed
    (base_url endpoint : string) (duration_minutes : Z) (start_time : Q)
    (turns : list latency_turn) (out : option latency_report) :
  check_latency base_url endpoint duration_minutes start_time turns
    = Some (Ok out) ->
  exists (k : nat) (rs : list RequestResult),
    (k <= List.length turns)%nat
    /\ Forall2 (fun t r =>
                  Py.gt (start_time + inject_Z (duration_minutes * 60))%Q
                        (guard_clock t) = true
                  /\ test_endpoint base_url endpoint "POST" None
                       (turn_probe t) = Ok r)
               (firstn k turns) rs
    /\ latency_summary endpoint duration_minutes rs = Ok out
    /\ (out = None <-> rs = []).
Proof.
  unfold check_latency.
  destruct (latency_loop base_url endpoint _ turns [])
    as [[collected | x] |] eqn:Hloop; try discriminate.
  intros [= Hout].
  destruct (latency_loop_collects _ _ _ _ _ _ Hloop)
    as [k [rs [Hk [-> Hall]]]].
  exists k, rs. split; [exact Hk |]. split; [exact Hall |].
  split; [exact Hout |].
  destruct (latency_summary_returns endpoint duration_minutes rs)
    as [out' [Hout' Hnone]].
  simpl in Hout. rewrite Hout in Hout'. injection Hout' as <-. exact Hnone.
Qed.

Lemma check_latency_reports_what_it_probed_witness :
  exists (k : nat) (rs : list RequestResult),
    (k <= 3)%nat
    /\ Forall2 (fun t r =>
                  Py.gt (0 + inject_Z (1 * 60))%Q (guard_clock t) = true
                  /\ test_endpoint Examples.base_url Examples.search "POST"
                       None (turn_probe t) = Ok r)
               (firstn k Worlds.two_then_interrupt) rs
    /\ latency_summary Examples.search 1 rs = Ok Worlds.two_results_report
    /\ (Worlds.two_results_report = None <-> rs = []).
Proof.
  exact (check_latency_reports_what_it_probed Examples.base_url
           Examples.search 1 0%Q Worlds.two_then_interrupt
           Worlds.two_results_report eq_refl).
Defined.

(** With no time to run ([duration_minutes <= 0]) and a clock that does not
    go back, [check_latency] sends no probe and returns the empty report. *)
Theorem check_latency_without_time
    (base_url endpoint : string) (duration_minutes : Z) (start_time : Q)
    (t : latency_turn) (turns : list latency_turn) :
  duration_minutes <= 0 ->
  (start_time <= guard_clock t)%Q ->
  check_latency base_url endpoint duration_minutes start_time (t :: turns)
    = Some (Ok None).
Proof.
  intros Hd Hclock. unfold check_latency. simpl.
  assert (Hgt : Py.gt (start_time + inject_Z (duration_minutes * 60))
                      (guard_clock t) = false).
  { unfold Py.gt. apply negb_false_iff, Qle_bool_iff.
    assert (Hneg : (inject_Z (duration_minutes * 60) <= 0)%Q)
      by (unfold Qle; simpl; lia).
    lra. }
  rewrite Hgt. reflexivity.
Qed.

Lemma check_latency_without_time_witness :
  check_latency Examples.base_url Examples.search 0 0%Q
    [Worlds.turn_at 0 (Examples.answering 200)] = Some (Ok None).
Proof.
  exact (check_latency_without_time Examples.base_url Examples.search 0 0%Q
           (Worlds.turn_at 0 (Examples.answering 200)) []
           ltac:(lia) ltac:(discriminate)).
Defined.

(** *** Order among the reported figures *)

Lemma sum_between (lo hi : Q) (l : list Q) :
  Forall (fun x => lo <= x <= hi)%Q l ->
  (lo * inject_Z (Py.len l) <= fold_right Qplus 0 l
   <= hi * inject_Z (Py.len l))%Q.
Proof.
  unfold Py.len. induction 1 as [| x l [Hlo Hhi] _ IH].
  - simpl. change (inject_Z (Z.of_nat 0)) with 0%Q. lra.
  - change (List.length (x :: l)) with (S (List.length l)).
    rewrite Nat2Z.inj_succ. unfold Z.succ. rewrite inject_Z_plus.
    simpl fold_right. change (inject_Z 1) with 1%Q.
    set (n := inject_Z (Z.of_nat (List.length l))) in *.
    set (s := fold_right Qplus 0%Q l) in *. clearbody n s. nra.
Qed.

Lemma extremes_bound_all (mn mx : Q) (l : list Q) :
  is_minimum mn l -> is_maximum mx l ->
  Forall (fun x => mn <= x <= mx)%Q l.
Proof.
  intros [_ Hlo] [_ Hhi]. apply List.Forall_forall. intros x Hx.
  rewrite List.Forall_forall in Hlo, Hhi. split; auto.
Qed.

Lemma mean_between (m lo hi : Q) (l : list Q) :
  l <> [] -> is_mean m l ->
  Forall (fun x => lo <= x <= hi)%Q l -> (lo <= m <= hi)%Q.
Proof.
  intros Hne Hmean Hall. unfold is_mean in Hmean.
  pose proof (sum_between lo hi l Hall) as [Hlo Hhi].
  rewrite <- Hmean in Hlo, Hhi.
  assert (Hn : (0 < inject_Z (Py.len l))%Q).
  { unfold Py.len, Qlt. simpl. destruct l; [congruence | simpl; lia]. }
  split.
  - apply (Qmult_le_r _ _ _ Hn). exact Hlo.
  - apply (Qmult_le_r _ _ _ Hn). exact Hhi.
Qed.

Lemma median_between (m lo hi : Q) (l : list Q) :
  is_median m l ->
  Forall (fun x => lo <= x <= hi)%Q l -> (lo <= m <= hi)%Q.
Proof.
  intros [s [Hperm [_ Hmid]]] Hall.
  assert (Hin : forall i a, nth_error s i = Some a -> (lo <= a <= hi)%Q).
  { intros i a Ha. apply nth_error_In in Ha.
    apply (Permutation_in _ Hperm) in Ha.
    rewrite List.Forall_forall in Hall. apply Hall, Ha. }
  simpl in Hmid. destruct (Nat.odd (List.length l)).
  - destruct Hmid as [a [Ha ->]]. eapply Hin, Ha.
  - destruct Hmid as [a [b [Ha [Hb ->]]]].
    pose proof (Hin _ _ Ha). pose proof (Hin _ _ Hb).
    split; [apply Qle_shift_div_l | apply Qle_shift_div_r]; lra.
Qed.

Lemma percent_bounds (a b : Z) :
  0 <= a <= b -> 0 < b ->
  (0 <= inject_Z a / inject_Z b * 100 <= 100)%Q.
Proof.
  intros Ha Hb.
  assert (Hpos : (0 < inject_Z b)%Q) by (unfold Qlt; simpl; lia).
  assert (H0 : (0 <= inject_Z a / inject_Z b)%Q).
  { apply Qle_shift_div_l; [exact Hpos |].
    rewrite Qmult_0_l. unfold Qle. simpl. lia. }
  assert (H1 : (inject_Z a / inject_Z b <= 1)%Q).
  { apply Qle_shift_div_r; [exact Hpos |].
    rewrite Qmult_1_l. unfold Qle. simpl. lia. }
  set (q := (inject_Z a / inject_Z b)%Q) in *. lra.
Qed.

Lemma count_success_bounds (results : list RequestResult) :
  0 <= count_success results <= Py.len results.
Proof.
  unfold count_success, Py.len.
  pose proof (List.filter_length_le success results). lia.
Qed.

(** The figures of a latency report are in order: the least latency is at
    most the mean and the median, which are at most the greatest latency; at
    least one request is counted and the success rate is between 0 and
    100. *)
Theorem latency_report_is_ordered
    (endpoint : string) (duration_minutes : Z)
    (results : list RequestResult) (rep : latency_report) :
  latency_summary endpoint duration_minutes results = Ok (Some rep) ->
  (min_latency rep <= avg_latency rep <= max_latency rep)%Q
  /\ (min_latency rep <= median_latency rep <= max_latency rep)%Q
  /\ 1 <= lr_total_requests rep
  /\ (0 <= lr_success_rate rep <= 100)%Q.
Proof.
  intros Hrep.
  destruct results as [| r results]; [discriminate |].
  set (latencies := List.map response_time (r :: results)).
  assert (Hne : latencies <> []) by discriminate.
  destruct (median_is_median latencies Hne) as [med [Hmed Hmedian]].
  unfold latency_summary in Hrep. fold latencies in Hrep.
  destruct (Py.mean latencies) as [avg |] eqn:Havg; [| discriminate].
  destruct (Py.min latencies) as [mn |] eqn:Hmin; [| discriminate].
  destruct (Py.max latencies) as [mx |] eqn:Hmax; [| discriminate].
  rewrite Hmed in Hrep. injection Hrep as <-. simpl.
  pose proof (extremes_bound_all mn mx latencies
                (min_is_minimum _ _ Hmin) (max_is_maximum _ _ Hmax)) as Hall.
  split; [exact (mean_between avg mn mx latencies Hne
                   (mean_is_mean _ _ Havg) Hall) |].
  split; [exact (median_between med mn mx latencies Hmedian Hall) |].
  split; [unfold Py.len; simpl; lia |].
  apply percent_bounds.
  - apply count_success_bounds.
  - unfold Py.len. simpl. lia.
Qed.

Lemma latency_report_is_ordered_witness :
  match Worlds.two_results_report with
  | Some rep =>
      (min_latency rep <= avg_latency rep <= max_latency rep)%Q
      /\ (min_latency rep <= median_latency rep <= max_latency rep)%Q
      /\ 1 <= lr_total_requests rep
      /\ (0 <= lr_success_rate rep <= 100)%Q
  | None => False
  end.
Proof.
  exact (latency_report_is_ordered Examples.search 1 Worlds.two_results
           _ eq_refl).
Defined.

(** *** More on [check_availability] *)

Lemma check_availability_fields (base_url endpoint : string) (days : Z)
    (world : nat -> probe_env) (rep : availability_report) :
  check_availability base_url endpoint days world = Ok rep ->
  av_endpoint rep = endpoint
  /\ av_days rep = days
  /\ av_total_requests rep = Z.min 100 (days * 50)
  /\ av_success_rate rep
     = (if 0 <? av_total_requests rep
        then (inject_Z (av_success_count rep)
              / inject_Z (av_total_requests rep) * 100)%Q
        else 0%Q).
Proof.
  unfold check_availability.
  destruct (availability_loop base_url endpoint world 0
              (Z.to_nat (Z.min 100 (days * 50))) (0, 0))
    as [[s e] | x]; simpl; [| discriminate].
  intros [= <-]. simpl. repeat split.
Qed.

Lemma classes_are_disjoint (statuses : list Z) :
  count_status is_200 statuses + count_status is_5xx statuses
  <= Py.len statuses.
Proof.
  induction statuses as [| c statuses IH].
  - unfold count_status, Py.len. simpl. lia.
  - rewrite !count_status_cons. unfold Py.len in *. simpl List.length.
    rewrite Nat2Z.inj_succ. unfold is_200 at 1, is_5xx at 1.
    destruct (Z.eqb_spec c 200), (Z.leb_spec 500 c); lia.
Qed.

Lemma ratio_antitone (a c d : Z) :
  0 <= a -> 0 < c <= d ->
  (inject_Z a / inject_Z d <= inject_Z a / inject_Z c)%Q.
Proof.
  intros Ha [Hc Hcd].
  assert (Hcq : (0 < inject_Z c)%Q) by (unfold Qlt; simpl; lia).
  assert (Hdq : (0 < inject_Z d)%Q) by (unfold Qlt; simpl; lia).
  apply Qle_shift_div_l; [exact Hcq |].
  assert (Heq : (inject_Z a / inject_Z d * inject_Z c
                 == inject_Z a * inject_Z c / inject_Z d)%Q)
    by (unfold Qdiv; ring).
  rewrite Heq. apply Qle_shift_div_r; [exact Hdq |].
  rewrite <- !inject_Z_mult. unfold Qle. simpl. nia.
Qed.

(** The figures of an availability report are consistent: both counters are
    non-negative, together they count at most the probes made, of which there
    are at most 100; the success rate is between 0 and 100 and never above
    the availability. *)
Theorem availability_report_is_consistent
    (base_url endpoint : string) (days : Z) (world : nat -> probe_env)
    (rep : availability_report) :
  check_availability base_url endpoint days world = Ok rep ->
  0 <= av_success_count rep
  /\ 0 <= av_error_count rep
  /\ av_success_count rep + av_error_count rep
     <= Z.max 0 (av_total_requests rep)
  /\ av_total_requests rep <= 100
  /\ (0 <= av_success_rate rep <= 100)%Q
  /\ (av_success_rate rep <= availability_percentage rep)%Q.
Proof.
  intros Hrep.
  destruct (check_availability_counts _ _ _ _ _ Hrep) as [Hs [He [Hlen Hav]]].
  destruct (check_availability_fields _ _ _ _ _ Hrep)
    as [_ [_ [Htotal Hrate]]].
  set (statuses := probe_statuses base_url endpoint world 0
                     (Z.to_nat (Z.min 100 (days * 50)))) in *.
  pose proof (count_status_nonneg is_200 statuses) as Hs0.
  pose proof (count_status_nonneg is_5xx statuses) as He0.
  pose proof (classes_are_disjoint statuses) as Hsum.
  unfold Py.len in Hsum. rewrite Hlen in Hsum.
  rewrite <- Hs in Hs0, Hsum. rewrite <- He in He0, Hsum.
  rewrite <- Htotal in Hsum.
  split; [exact Hs0 |]. split; [exact He0 |].
  split; [lia |]. split; [lia |].
  rewrite Hrate, Hav.
  destruct (Z.ltb_spec 0 (av_total_requests rep)) as [Hpos | Hneg].
  - split; [apply percent_bounds; lia |].
    unfold availability.
    destruct (Z.ltb_spec 0 (av_success_count rep + av_error_count rep))
      as [Hrel | Hirr].
    + apply Qmult_le_compat_r; [| discriminate].
      apply ratio_antitone; lia.
    + assert (Hzero : av_success_count rep = 0) by lia.
      rewrite Hzero. unfold Qdiv. rewrite !Qmult_0_l. apply Qle_refl.
  - split; [split; discriminate |].
    apply (availability_bounds _ _ Hs0 He0).
Qed.

Lemma availability_report_is_consistent_witness :
  0 <= av_success_count Examples.report_mostly_up
  /\ 0 <= av_error_count Examples.report_mostly_up
  /\ av_success_count Examples.report_mostly_up
     + av_error_count Examples.report_mostly_up
     <= Z.max 0 (av_total_requests Examples.report_mostly_up)
  /\ av_total_requests Examples.report_mostly_up <= 100
  /\ (0 <= av_success_rate Examples.report_mostly_up <= 100)%Q
  /\ (av_success_rate Examples.report_mostly_up
      <= availability_percentage Examples.report_mostly_up)%Q.
Proof.
  exact (availability_report_is_consistent Examples.base_url Examples.search
           1 Examples.mostly_up Examples.report_mostly_up eq_refl).
Defined.

Lemma availability_loop_ext (base_url endpoint : string)
    (w1 w2 : nat -> probe_env) (n : nat) :
  forall i counts,
    (forall j, (i <= j < i + n)%nat -> w1 j = w2 j) ->
    availability_loop base_url endpoint w1 i n counts
    = availability_loop base_url endpoint w2 i n counts.
Proof.
  induction n as [| n IH]; intros i counts Hagree; simpl; [reflexivity |].
  rewrite (Hagree i) by lia.
  destruct (availability_step base_url endpoint counts (w2 i)) as [c | e];
    simpl; [| reflexivity].
  apply IH. intros j Hj. apply Hagree. lia.
Qed.

(** [check_availability] makes at most 100 probes, and [50 * days] when that
    is less: what the world would answer to later probes has no effect on the
    report. *)
Theorem check_availability_probes_are_capped
    (base_url endpoint : string) (days : Z) (w1 w2 : nat -> probe_env) :
  (forall i : nat,
     (i < 100)%nat -> Z.of_nat i < days * 50 -> w1 i = w2 i) ->
  check_availability base_url endpoint days w1
  = check_availability base_url endpoint days w2.
Proof.
  intros Hagree. unfold check_availability.
  rewrite (availability_loop_ext base_url endpoint w1 w2
             (Z.to_nat (Z.min 100 (days * 50))) 0%nat (0, 0));
    [reflexivity |].
  intros j Hj. apply Hagree; lia.
Qed.

Lemma check_availability_probes_are_capped_witness :
  check_availability Examples.base_url Examples.search 7
    (Worlds.hundred_up_then Examples.unreachable)
  = check_availability Examples.base_url Examples.search 7
      (Worlds.hundred_up_then (Examples.answering 404)).
Proof.
  apply check_availability_probes_are_capped.
  intros i Hi _. unfold Worlds.hundred_up_then.
  destruct (Nat.ltb_spec i 100); [reflexivity | lia].
Defined.

(** For a number of days that is not positive, [check_availability] makes no
    probe and reports zero requests, availability 0 and success rate 0. *)
Theorem check_availability_without_days
    (base_url endpoint : string) (days : Z) (world : nat -> probe_env) :
  days <= 0 ->
  check_availability base_url endpoint days world
  = Ok {| av_endpoint := endpoint;
          av_days := days;
          av_total_requests := days * 50;
          av_success_count := 0;
          av_error_count := 0;
          availability_percentage := 0;
          av_success_rate := 0 |}.
Proof.
  intros Hdays. unfold check_availability.
  replace (Z.min 100 (days * 50)) with (days * 50) by lia.
  replace (Z.to_nat (days * 50)) with 0%nat by lia. simpl.
  destruct (Z.ltb_spec 0 (days * 50)); [lia | reflexivity].
Qed.

Lemma check_availability_without_days_witness :
  check_availability Examples.base_url Examples.search (-3)
    (fun _ => Worlds.out_of_memory)
  = Ok {| av_endpoint := Examples.search;
          av_days := -3;
          av_total_requests := -150;
          av_success_count := 0;
          av_error_count := 0;
          availability_percentage := 0;
          av_success_rate := 0 |}.
Proof.
  exact (check_availability_without_days Examples.base_url Examples.search
           (-3) (fun _ => Worlds.out_of_memory) ltac:(lia)).
Defined.

(** ** More on the HTTP service *)

Import Search.

Local Open Scope string_scope.

(** *** The logging decorator *)

(** [log_execution_time] changes neither the result nor the exception of the
    function it wraps.  It adds one record before the function's own trace
    and one after it: the completion on a return, the failure with the
    exception's text on an [Exception], and nothing when the function is
    interrupted. *)
Theorem log_execution_time_is_transparent {A : Type}
    (logger function_name : string) (func : M A) :
  outcome (log_execution_time logger function_name func) = outcome func
  /\ trace (log_execution_time logger function_name func)
     = (Log Api.INFO logger ("Starting execution - " ++ function_name)
        :: trace func
        ++ match outcome func with
           | Ok _ =>
               [Log Api.INFO logger ("Completed execution - " ++ function_name)]
           | Raise e =>
               if is_Exception e
               then [Log Api.ERROR logger
                       ("Failed execution - " ++ function_name
                        ++ " - Error: " ++ exn_str e)]
               else []
           end)%list.
Proof.
  split; [apply outcome_log_execution_time |].
  unfold log_execution_time, trace, outcome, and_then, try_except, emit, pure,
    raise.
  destruct func as [tr [a | e]]; simpl.
  - reflexivity.
  - destruct (is_Exception e); simpl; rewrite ?app_nil_r; reflexivity.
Qed.

(** *** The search orchestrator *)

Lemma outcome_and_then {A B : Type} (m : M A) (k : A -> M B) :
  outcome (and_then m k)
  = match outcome m with
    | Ok a => outcome (k a)
    | Raise e => Raise e
    end.
Proof.
  unfold outcome, and_then. destruct m as [tr [a | e]]; simpl;
    [destruct (k a); reflexivity | reflexivity].
Qed.

Lemma get_stats_from_db_outcome (supabase : client) (pokemon_name : string) :
  outcome (get_stats_from_db supabase pokemon_name)
  = stats_of_answer (supabase "stats" "Name" (Py.lower pokemon_name)).
Proof.
  unfold get_stats_from_db. rewrite outcome_log_execution_time.
  unfold get_supabase, query, and_then, try_except, emit, pure, raise,
    outcome, stats_of_answer.
  destruct (supabase "stats" "Name" (Py.lower pokemon_name))
    as [[| record rest] | e]; simpl; try reflexivity.
  destruct (is_Exception e); reflexivity.
Qed.

Lemma get_image_url_outcome (pokemon_name base_url : string) :
  outcome (get_image_url pokemon_name base_url)
  = Ok (base_url ++ "/images/" ++ Py.lower pokemon_name ++ "/0.jpg").
Proof. reflexivity. Qed.

Lemma http_get_json_outcome (remote : remote_api) (url : string) :
  outcome (http_get_json remote url) = remote url.
Proof. reflexivity. Qed.

Lemma search_pokemon_outcome (remote : remote_api) (supabase : client)
    (name : string) :
  outcome (search_pokemon remote supabase name)
  = match remote ("https://pokeapi.co/api/v2/pokemon/" ++ Py.lower name) with
    | Raise e => Raise e
    | Ok data =>
        match stats_of_answer (supabase "stats" "Name" (Py.lower name)) with
        | Raise e => Raise e
        | Ok stats =>
            match field "name" data with
            | None => Raise key_error
            | Some canonical =>
                Ok {| sr_name := canonical;
                      sr_stats := stats;
                      sr_image := "http://localhost:8000/images/"
                                  ++ Py.lower name ++ "/0.jpg" |}
            end
        end
    end.
Proof.
  unfold search_pokemon. cbv zeta.
  rewrite outcome_and_then, http_get_json_outcome.
  destruct (remote _) as [data | e]; [| reflexivity].
  rewrite outcome_and_then, get_stats_from_db_outcome.
  destruct (stats_of_answer _) as [stats | e]; [| reflexivity].
  rewrite outcome_and_then, get_image_url_outcome.
  rewrite outcome_and_then. unfold item.
  destruct (field "name" data); reflexivity.
Qed.

Lemma trace_and_then {A B : Type} (m : M A) (k : A -> M B) :
  trace (and_then m k)
  = (trace m ++ match outcome m with
                | Ok a => trace (k a)
                | Raise _ => []
                end)%list.
Proof.
  unfold trace, outcome, and_then. destruct m as [tr [a | e]]; simpl;
    [destruct (k a); reflexivity | rewrite app_nil_r; reflexivity].
Qed.

Lemma get_stats_from_db_queries (supabase : client) (pokemon_name : string) :
  In (StoreQuery "stats" "Name" (Py.lower pokemon_name))
     (trace (get_stats_from_db supabase pokemon_name)).
Proof.
  unfold get_stats_from_db, log_execution_time, get_supabase, query,
    and_then, try_except, emit, pure, raise, trace.
  destruct (supabase "stats" "Name" (Py.lower pokemon_name))
    as [[| record rest] | e]; simpl; auto 10.
  destruct (is_Exception e) eqn:He; simpl; rewrite ?He; simpl; auto 10.
Qed.

(** When the remote API answers with an object that has a ["name"] and the
    store answers, [search_pokemon] returns that name, the stats of the first
    row (an empty list when no row matches, which is not an error) and the
    image URL on the default base for the lowercased name. *)
Theorem search_pokemon_composes
    (remote : remote_api) (supabase : client) (name : string)
    (data : list (string * json)) (canonical : json) (rows : list row) :
  remote ("https://pokeapi.co/api/v2/pokemon/" ++ Py.lower name) = Ok data ->
  field "name" data = Some canonical ->
  supabase "stats" "Name" (Py.lower name) = Ok rows ->
  exists stats,
    outcome (search_pokemon remote supabase name)
    = Ok {| sr_name := canonical;
            sr_stats := stats;
            sr_image := "http://localhost:8000/images/" ++ Py.lower name
                        ++ "/0.jpg" |}
    /\ stats_of_answer (Ok rows) = Ok stats
    /\ (rows = [] -> stats = [])
    /\ (rows <> [] -> List.length stats = 6%nat).
Proof.
  intros Hremote Hname Hstore.
  rewrite search_pokemon_outcome, Hremote, Hstore, Hname.
  destruct rows as [| record rest]; simpl.
  - exists []. split; [reflexivity |]. split; [reflexivity |].
    split; [reflexivity | congruence].
  - eexists. split; [reflexivity |]. split; [reflexivity |].
    split; [discriminate | reflexivity].
Qed.

Lemma search_pokemon_composes_witness :
  exists stats,
    outcome (search_pokemon pokeapi_sample Examples.one_row_store "Pikachu")
    = Ok {| sr_name := JStr "pikachu";
            sr_stats := stats;
            sr_image := "http://localhost:8000/images/pikachu/0.jpg" |}
    /\ stats_of_answer (Ok [Examples.pikachu_row]) = Ok stats
    /\ ([Examples.pikachu_row] = [] -> stats = [])
    /\ ([Examples.pikachu_row] <> [] -> List.length stats = 6%nat).
Proof.
  exact (search_pokemon_composes pokeapi_sample Examples.one_row_store
           "Pikachu" [("id", JNum 25); ("name", JStr "pikachu")]
           (JStr "pikachu") [Examples.pikachu_row]
           eq_refl eq_refl eq_refl).
Defined.

(** [search_pokemon] asks the remote API first.  When that call fails the
    error is passed on and nothing else happens: the store is not asked and
    nothing is logged.  When it answers, the store is asked next; an error of
    the store is passed on; a remote answer without a ["name"] is found out
    only at the end, as a [KeyError], after the store has been asked. *)
Theorem search_pokemon_failures
    (remote : remote_api) (supabase : client) (name : string) :
  let url := "https://pokeapi.co/api/v2/pokemon/" ++ Py.lower name in
  hd_error (trace (search_pokemon remote supabase name)) = Some (HttpGet url)
  /\ match remote url with
     | Raise e =>
         outcome (search_pokemon remote supabase name) = Raise e
         /\ trace (search_pokemon remote supabase name) = [HttpGet url]
     | Ok data =>
         In (StoreQuery "stats" "Name" (Py.lower name))
            (trace (search_pokemon remote supabase name))
         /\ match supabase "stats" "Name" (Py.lower name) with
            | Raise e =>
                outcome (search_pokemon remote supabase name) = Raise e
            | Ok _ =>
                match field "name" data with
                | None =>
                    outcome (search_pokemon remote supabase name)
                    = Raise key_error
                | Some canonical =>
                    exists r,
                      outcome (search_pokemon remote supabase name) = Ok r
                      /\ sr_name r = canonical
                end
            end
     end.
Proof.
  intros url. split.
  - unfold search_pokemon. fold url. rewrite trace_and_then. reflexivity.
  - rewrite search_pokemon_outcome. fold url.
    unfold search_pokemon at 1 2. fold url. rewrite !trace_and_then.
    rewrite http_get_json_outcome.
    destruct (remote url) as [data | e]; [| split; reflexivity].
    split.
    + apply in_or_app. right. rewrite trace_and_then.
      apply in_or_app. left. apply get_stats_from_db_queries.
    + destruct (supabase "stats" "Name" (Py.lower name)) as [rows | e];
        simpl; [| reflexivity].
      destruct rows; simpl; destruct (field "name" data);
        try reflexivity; eexists; split; reflexivity.
Qed.

(** *** Letter case *)

Lemma lower_ascii_idempotent (c : ascii) :
  Py.lower_ascii (Py.lower_ascii c) = Py.lower_ascii c.
Proof.
  destruct c as [[] [] [] [] [] [] [] []]; reflexivity.
Qed.

Lemma lower_idempotent (s : string) : Py.lower (Py.lower s) = Py.lower s.
Proof.
  induction s as [| c s IH]; simpl; [reflexivity |].
  rewrite lower_ascii_idempotent, IH. reflexivity.
Qed.

(** Names are looked up without regard to letter case: two names with the
    same lowercased form get the same answer from the image handler, the
    same image URL, the same stats and the same search result; a name and its
    lowercased form are such a pair. *)
Theorem lookups_ignore_case
    (cwd : string) (fs : string -> bool) (base_url : string)
    (remote : remote_api) (supabase : client) (a b : string) :
  Py.lower a = Py.lower b ->
  get_image_fallback cwd fs a = get_image_fallback cwd fs b
  /\ outcome (get_image_url a base_url) = outcome (get_image_url b base_url)
  /\ outcome (get_stats_from_db supabase a)
     = outcome (get_stats_from_db supabase b)
  /\ outcome (search_pokemon remote supabase a)
     = outcome (search_pokemon remote supabase b)
  /\ Py.lower (Py.lower a) = Py.lower a.
Proof.
  intros Hab. split; [| split; [| split; [| split]]].
  - unfold get_image_fallback. rewrite Hab. reflexivity.
  - rewrite !get_image_url_outcome, Hab. reflexivity.
  - rewrite !get_stats_from_db_outcome, Hab. reflexivity.
  - rewrite !search_pokemon_outcome, Hab. reflexivity.
  - apply lower_idempotent.
Qed.

Lemma lookups_ignore_case_witness :
  get_image_fallback "/srv" Examples.one_image "Pikachu"
  = get_image_fallback "/srv" Examples.one_image "PIKACHU"
  /\ outcome (get_stats_from_db Examples.one_row_store "Pikachu")
     = outcome (get_stats_from_db Examples.one_row_store "PIKACHU").
Proof.
  destruct (lookups_ignore_case "/srv" Examples.one_image default_base_url
              pokeapi_sample Examples.one_row_store "Pikachu" "PIKACHU"
              eq_refl) as [Himage [_ [Hstats _]]].
  split; [exact Himage | exact Hstats].
Defined.

(** *** What the handlers touch *)

(** The health check does not contact the store: with the check of the
    source, [get_supabase()], the handler writes log records and does nothing
    else, whatever the state of the store.  The image handler, for its part,
    checks one path and writes no log record. *)
Theorem health_check_contacts_nothing
    (supabase : client) (now : Q)
    (cwd : string) (fs : string -> bool) (pokemon_name : string) :
  forallb is_log (trace (health_check (get_supabase supabase) now)) = true
  /\ existsb is_store_query
       (trace (health_check (get_supabase supabase) now)) = false
  /\ trace (get_image_fallback cwd fs pokemon_name)
     = [PathExists (Py.path_join (IMAGE_FOLDER cwd)
                      (Py.lower pokemon_name ++ ".png"))].
Proof.
  split; [reflexivity |]. split; [reflexivity |].
  unfold get_image_fallback, path_exists, and_then, emit, pure, raise, trace.
  simpl. destruct (fs _); reflexivity.
Qed.

(** *** The order of the rows *)

(** The chart keeps the order of the values: of two samples between the
    least and the greatest, the larger is never drawn below the smaller (its
    row index is not greater). *)
Theorem larger_values_are_drawn_higher (min_val max_val v v' : Q) :
  (min_val <= v)%Q -> (v <= v')%Q -> (v' <= max_val)%Q ->
  point_row min_val max_val v' <= point_row min_val max_val v.
Proof.
  intros Hlo Hvv Hhi.
  destruct (Qlt_le_dec min_val max_val) as [Hlt | Hle].
  - rewrite !point_row_floor by (try exact Hlt; lra).
    apply Qfloor_resp_le.
    assert (Hn : ((v - min_val) / (max_val - min_val)
                  <= (v' - min_val) / (max_val - min_val))%Q).
    { unfold Qdiv. apply Qmult_le_compat_r; [lra |].
      apply Qinv_le_0_compat. lra. }
    set (n := ((v - min_val) / (max_val - min_val))%Q) in *.
    set (n' := ((v' - min_val) / (max_val - min_val))%Q) in *.
    clearbody n n'. lra.
  - rewrite !point_row_flat by exact Hle. lia.
Qed.

Lemma larger_values_are_drawn_higher_witness :
  point_row 10 20 15 <= point_row 10 20 10.
Proof.
  exact (larger_values_are_drawn_higher 10 20 10 15
           ltac:(discriminate) ltac:(discriminate) ltac:(discriminate)).
Defined.
